(** * RustyTiger: the ticket subsystem and the helpers of [bot.py]

    A shallow embedding of the parts of [src/bot.py] that the ticket
    workflow relies on and of the helpers for colours, escape sequences
    and link buttons, followed by the properties established about them.

    Conventions.
    - A Python [str] is a [string]; one [ascii] stands for one code point
      in the range 0..255, and the case and white-space tables below are
      Python's restricted to that range.  The literals of the source that
      hold other characters appear with their UTF-8 bytes.
    - A Python [int] is a [Z]; [%] is [Z.modulo] (both take the sign of the
      divisor) and [&] is [Z.land] (both are two's complement).
    - A configuration key is [None] when it is absent and [Some s] when it
      holds the string [s], as in the default [CONFIG] literal of the
      source where every such key holds a string; keys that hold null or
      a value of another type are outside the model.
    - The platform library is modelled by what the source relies on: the
      default role of a guild is the role whose id is the guild's id,
      roles are compared with roles and members with members, by id. *)

From Stdlib Require Import ZArith String Ascii List Bool Lia Sorted.
From stdpp Require Import gmap.
Import ListNotations.

Open Scope string_scope.
Open Scope Z_scope.

(** ** Python primitives *)

Module Py.

(** Code point of a character. *)
Definition ord (c : ascii) : Z := Z.of_N (N_of_ascii c).

Definition chr (n : Z) : ascii := ascii_of_N (Z.to_N n).

Definition between (lo hi n : Z) : bool := (lo <=? n) && (n <=? hi).

(** [str.isspace] on one code point below 256: the characters removed by
    [str.strip()]. *)
Definition isspace (c : ascii) : bool :=
  let n := ord c in
  between 9 13 n || between 28 32 n || (n =? 133) || (n =? 160).

(** White space as [int(text, base)] sees it: the ASCII set of the C
    scanner, and the two non-ASCII spaces, which are mapped to a blank
    before scanning. *)
Definition int_space (c : ascii) : bool :=
  let n := ord c in
  between 9 13 n || (n =? 32) || (n =? 133) || (n =? 160).

(** [str.lower] on one code point below 256. *)
Definition lower_char (c : ascii) : ascii :=
  let n := ord c in
  if between 65 90 n || between 192 214 n || between 216 222 n
  then chr (n + 32) else c.

Fixpoint lower (s : string) : string :=
  match s with
  | EmptyString => EmptyString
  | String c r => String (lower_char c) (lower r)
  end.

(** [s.lstrip(chars)] with the character set given as a predicate. *)
Fixpoint lstrip_by (p : ascii -> bool) (s : string) : string :=
  match s with
  | EmptyString => EmptyString
  | String c r => if p c then lstrip_by p r else s
  end.

Fixpoint rstrip_by (p : ascii -> bool) (s : string) : string :=
  match s with
  | EmptyString => EmptyString
  | String c r =>
      match rstrip_by p r with
      | EmptyString => if p c then EmptyString else String c EmptyString
      | r' => String c r'
      end
  end.

(** [s.strip()] *)
Definition strip (s : string) : string := rstrip_by isspace (lstrip_by isspace s).

(** [s.lstrip("#")] *)
Definition lstrip_hash (s : string) : string :=
  lstrip_by (fun c => Ascii.eqb c "#") s.

(** [s.startswith(p)] *)
Fixpoint startswith (s p : string) {struct p} : bool :=
  match p with
  | EmptyString => true
  | String c p' =>
      match s with
      | EmptyString => false
      | String d s' => Ascii.eqb c d && startswith s' p'
      end
  end.

(** [s[:n]] for a non-negative [n]. *)
Definition take (n : nat) (s : string) : string := String.substring 0 n s.

(** Truth value of an optional string: [None] and [""] are false. *)
Definition truthy (v : option string) : bool :=
  match v with
  | Some (String _ _) => true
  | _ => false
  end.

(** [v or d] *)
Definition or_default (v : option string) (d : string) : string :=
  match v with
  | Some (String c r) => String c r
  | _ => d
  end.

(** [d.get(k, default)]: the default is used only when the key is absent. *)
Definition get_default (v : option string) (d : string) : string :=
  match v with
  | Some s => s
  | None => d
  end.

(** *** [int(text, base)]

    The scanner of CPython's [PyLong_FromString]: leading white space, an
    optional sign, for base 16 an optional [0x] which may be followed by
    one underscore, then digits separated by single underscores, then
    trailing white space up to the end of the text. *)

Definition digit_value (c : ascii) : option Z :=
  let n := ord c in
  if between 48 57 n then Some (n - 48)
  else if between 97 122 n then Some (n - 87)
  else if between 65 90 n then Some (n - 55)
  else None.

Definition digit_in (base : Z) (c : ascii) : option Z :=
  match digit_value c with
  | Some d => if d <? base then Some d else None
  | None => None
  end.

(** The digit loop. [prev_us] tells whether the previous character was an
    underscore and [n] counts the digits read so far.  The result is the
    value, the number of digits and the unread rest; [None] is the
    scanner's syntax error (a doubled or trailing underscore). *)
Fixpoint scan_digits (base : Z) (s : string) (prev_us : bool) (n : nat) (acc : Z)
  : option (Z * nat * string) :=
  match s with
  | EmptyString => if prev_us then None else Some (acc, n, EmptyString)
  | String c r =>
      if Ascii.eqb c "_" then
        if prev_us then None else scan_digits base r true n acc
      else
        match digit_in base c with
        | Some d => scan_digits base r false (S n) (acc * base + d)
        | None => if prev_us then None else Some (acc, n, s)
        end
  end.

Definition skip_sign (s : string) : bool * string :=
  match s with
  | String "+" r => (false, r)
  | String "-" r => (true, r)
  | _ => (false, s)
  end.

Definition skip_prefix (base : Z) (s : string) : string :=
  if base =? 16 then
    match s with
    | String "0" (String x r) =>
        if Ascii.eqb x "x" || Ascii.eqb x "X" then
          match r with
          | String "_" r' => r'
          | _ => r
          end
        else s
    | _ => s
    end
  else s.

(** [int(s, base)] for base 10 or 16; [None] stands for [ValueError]. *)
Definition int (base : Z) (s : string) : option Z :=
  let (neg, s1) := skip_sign (lstrip_by int_space s) in
  let s2 := skip_prefix base s1 in
  match s2 with
  | String "_" _ => None
  | _ =>
      match scan_digits base s2 false 0 0 with
      | None => None
      | Some (v, n, rest) =>
          match n, lstrip_by int_space rest with
          | S _, EmptyString => Some (if neg then - v else v)
          | _, _ => None
          end
      end
  end.

(** *** Decimal rendering: [str(n)] and the format [{n:04d}] *)

Definition digit_char (d : Z) : ascii := chr (48 + d).

(** The decimal digits of a non-negative number, most significant first.
    [fuel] bounds the number of digits. *)
Fixpoint digits_fuel (fuel : nat) (n : Z) (acc : string) : string :=
  match fuel with
  | O => acc
  | S fuel' =>
      let acc' := String (digit_char (n mod 10)) acc in
      if n / 10 =? 0 then acc' else digits_fuel fuel' (n / 10) acc'
  end.

Definition digits (n : Z) : string :=
  digits_fuel (S (Z.to_nat (Z.log2 n))) n EmptyString.

(** [str(n)] *)
Definition str_int (n : Z) : string :=
  if n <? 0 then String "-" (digits (- n)) else digits n.

Fixpoint zeros (k : nat) : string :=
  match k with
  | O => EmptyString
  | S k' => String "0" (zeros k')
  end.

(** [format(n, "0{w}d")]: sign first, then zeros up to the width [w]. *)
Definition format_0d (w : nat) (n : Z) : string :=
  if n <? 0 then
    let ds := digits (- n) in
    String "-" (zeros (w - 1 - String.length ds) ++ ds)
  else
    let ds := digits n in
    zeros (w - String.length ds) ++ ds.

End Py.

(** ** Configuration *)

(** [CONFIG["brand"]] *)
Record brand_config := {
  brand_name : option string;
  brand_color : option string;
  brand_author_icon : option string;
  brand_footer_text : option string
}.

(** [CONFIG["tickets"]] *)
Record tickets_config := {
  category_id : option string;
  support_role_id : option string;
  transcripts_channel_id : option string;
  ticket_prefix : option string
}.

Record config := {
  cfg_brand : option brand_config;
  cfg_tickets : option tickets_config
}.

(** [(CONFIG.get("brand") or {}).get(key)] *)
Definition brand_get (cfg : config) (key : brand_config -> option string)
  : option string :=
  match cfg_brand cfg with
  | Some b => key b
  | None => None
  end.

(** [(CONFIG.get("tickets") or {}).get(key)] *)
Definition tickets_get (cfg : config) (key : tickets_config -> option string)
  : option string :=
  match cfg_tickets cfg with
  | Some t => key t
  | None => None
  end.

(** The default [CONFIG] of the source, used when no [config.json] exists. *)
Definition default_config : config := {|
  cfg_brand := Some {|
    brand_name := Some "Rusty Tiger";
    brand_color := Some "#d97706";
    brand_author_icon := Some "";
    brand_footer_text := Some "Stay Rusty." |};
  cfg_tickets := Some {|
    category_id := Some "";
    support_role_id := Some "";
    transcripts_channel_id := Some "";
    ticket_prefix := Some "ticket" |}
|}.

(** ** Colours *)

Definition COLOR_MAP : list (string * Z) :=
  [ ("orange", 0xD97706);
    ("burnt_orange", 0xCC5500);
    ("black", 0x111111);
    ("gray", 0x4B5563);
    ("red", 0xEF4444);
    ("green", 0x10B981);
    ("blue", 0x3B82F6);
    ("purple", 0x8B5CF6);
    ("gold", 0xF59E0B) ].

(** [COLOR_MAP.get(k)] *)
Fixpoint color_lookup (table : list (string * Z)) (k : string) : option Z :=
  match table with
  | [] => None
  | (name, v) :: rest => if String.eqb k name then Some v else color_lookup rest k
  end.

(** [COLOR_MAP["orange"]] *)
Definition orange : Z := 0xD97706.

(** [parse_color].  The function calls itself on the brand colour when its
    argument is empty; [fuel] bounds the depth of these calls and [None]
    means that the bound was reached. *)
Fixpoint parse_color_fuel (fuel : nat) (cfg : config) (value : option string)
  : option Z :=
  match fuel with
  | O => None
  | S fuel' =>
      if negb (Py.truthy value) then
        let brand_color := brand_get cfg brand_color in
        if Py.truthy brand_color then parse_color_fuel fuel' cfg brand_color
        else Some orange
      else
        let v := Py.lower (Py.strip (Py.get_default value "")) in
        match color_lookup COLOR_MAP v with
        | Some c => Some c
        | None =>
            let v := Py.lstrip_hash v in
            match Py.int 16 v with
            | Some n => Some (Z.land n 0xFFFFFF)
            | None => Some orange
            end
        end
  end.

(** Two levels are enough (see [parse_color_fuel_enough]). *)
Definition parse_color (cfg : config) (value : option string) : option Z :=
  parse_color_fuel 2 cfg value.

(** ** Platform data *)

Definition nl : string := String (ascii_of_nat 10) EmptyString.

(** A [datetime.datetime] in UTC. *)
Record datetime := {
  year : Z; month : Z; day : Z;
  hour : Z; minute : Z; second : Z; microsecond : Z
}.



Definition dt_date_time (d : datetime) : string :=
  Py.format_0d 4 (year d) ++ "-" ++ Py.format_0d 2 (month d) ++ "-"
    ++ Py.format_0d 2 (day d) ++ " " ++ Py.format_0d 2 (hour d) ++ ":"
    ++ Py.format_0d 2 (minute d) ++ ":" ++ Py.format_0d 2 (second d).

(** [d.strftime("%Y-%m-%d %H:%M:%S UTC")] (years from 1000 on). *)
Definition strftime_utc (d : datetime) : string := dt_date_time d ++ " UTC".

(** [str(d)] of a time-zone aware UTC datetime. *)
Definition dt_str (d : datetime) : string :=
  dt_date_time d
    ++ (if microsecond d =? 0 then "" else "." ++ Py.format_0d 6 (microsecond d))
    ++ "+00:00".

(** A user or guild member: [user_tag] is [str(user)]. *)
Record user := {
  user_id : Z;
  user_name : string;
  user_tag : string
}.

(** [user.mention] *)
Definition user_mention (u : user) : string := "<@" ++ Py.str_int (user_id u) ++ ">".

(** [role.mention] *)
Definition role_mention (r : Z) : string := "<@&" ++ Py.str_int r ++ ">".

(** [channel.mention] *)
Definition channel_mention (c : Z) : string := "<#" ++ Py.str_int c ++ ">".

(** The keys of a channel's overwrites.  The platform library compares
    roles with roles and members with members, by id. *)
Inductive principal :=
| RoleP (id : Z)
| MemberP (id : Z).

#[global] Instance principal_eq_dec : EqDecision principal.
Proof. solve_decision. Defined.

#[global] Instance principal_countable : Countable principal.
Proof.
  refine (inj_countable'
            (fun p => match p with RoleP i => inl i | MemberP i => inr i end)
            (fun s => match s with inl i => RoleP i | inr i => MemberP i end) _).
  intros []; reflexivity.
Defined.

(** [discord.PermissionOverwrite]: [None] leaves a permission unset. *)
Record PermissionOverwrite := {
  view_channel : option bool;
  send_messages : option bool;
  read_message_history : option bool;
  attach_files : option bool;
  embed_links : option bool;
  manage_channels : option bool;
  manage_messages : option bool
}.

Inductive channel_kind := TextChannel | CategoryChannel | VoiceChannel | Thread.

Definition is_text (k : channel_kind) : bool :=
  match k with TextChannel => true | _ => false end.

Definition is_category (k : channel_kind) : bool :=
  match k with CategoryChannel => true | _ => false end.

(** A guild.  [guild_roles] lists the ids of its roles besides the default
    role, whose id is the guild's own id. *)
Record guild := {
  guild_id : Z;
  guild_name : string;
  guild_roles : list Z;
  guild_channels : list (Z * channel_kind);
  guild_me : user
}.

(** [guild.default_role] *)
Definition default_role (g : guild) : Z := guild_id g.

(** [guild.get_role(id)] *)
Definition get_role (g : guild) (id : Z) : option Z :=
  if (id =? guild_id g) || existsb (Z.eqb id) (guild_roles g) then Some id else None.

(** [guild.get_channel(id)] *)
Definition get_channel (g : guild) (id : Z) : option (Z * channel_kind) :=
  find (fun c => fst c =? id) (guild_channels g).

Record channel := {
  channel_id : Z;
  channel_name : string;
  channel_type : channel_kind;
  channel_created_at : datetime;
  channel_guild : guild
}.

Record interaction := {
  interaction_id : Z;
  interaction_guild : option guild;
  interaction_channel : option channel;
  interaction_user : user
}.

(** An embed of a message in a channel's history. *)
Record message_embed := {
  e_title : option string;
  e_description : option string
}.

Record attachment := { a_url : string }.

Record message := {
  msg_author : user;
  msg_created_at : datetime;
  msg_content : string;
  msg_embeds : list message_embed;
  msg_attachments : list attachment
}.

(** The embed built by [make_announcement_embed]. *)
Record Embed := {
  embed_title : string;
  embed_description : string;
  embed_color : Z;
  embed_url : option string;
  embed_timestamp : datetime;
  embed_author : option (string * option string);
  embed_thumbnail : option string;
  embed_image : option string;
  embed_footer : option string
}.

(** ** Effects

    Every call to the platform, the file system or the invoking actor is
    recorded, in order, when it is attempted; the world decides whether it
    raises.  Log records are kept apart from the calls. *)

Inductive exn :=
| ValueError
| OSError
| HTTPException
| Forbidden
| NotFound
| InteractionResponded.

Inductive call :=
| Respond (content : string) (ephemeral : bool)
| MakeDirs (path : string)
| History (channel : Z)
| WriteLines (path : string) (lines : list string)
| Send (channel : Z) (content : option string) (embed : option Embed)
       (file : option string)
| SetPermissions (channel : Z) (target : principal)
                 (overwrite : option PermissionOverwrite)
| CreateTextChannel (name : string) (category : option Z)
                    (overwrites : gmap principal PermissionOverwrite)
                    (reason : string)
| DeleteChannel (channel : Z) (reason : string).

Record world := {
  w_now : datetime;
  w_raises : call -> option exn;
  w_history : Z -> list message;
  w_new_channel_id : Z
}.

Record state := {
  calls : list call;
  logs : list string
}.

Definition initial : state := {| calls := []; logs := [] |}.

Inductive outcome (A : Type) :=
| Ret (a : A)
| Raise (e : exn).
Arguments Ret {A} a.
Arguments Raise {A} e.

Definition M (A : Type) : Type := world -> state -> outcome A * state.

Definition ret {A} (a : A) : M A := fun _ s => (Ret a, s).

Definition raise {A} (e : exn) : M A := fun _ s => (Raise e, s).

Definition bind {A B} (m : M A) (k : A -> M B) : M B :=
  fun w s =>
    match m w s with
    | (Ret a, s') => k a w s'
    | (Raise e, s') => (Raise e, s')
    end.

Notation "'let*' x ':=' m 'in' k" := (bind m (fun x => k))
  (at level 10, x name, m at level 100, k at level 200).
Notation "m '>>' k" := (bind m (fun _ => k))
  (at level 100, k at level 200, right associativity).

(** [try: body except Exception as e: handler(e)] *)
Definition try_except {A} (body : M A) (handler : exn -> M A) : M A :=
  fun w s =>
    match body w s with
    | (Ret a, s') => (Ret a, s')
    | (Raise e, s') => handler e w s'
    end.

(** An external call: recorded, then it raises or returns. *)
Definition record (c : call) (s : state) : state :=
  {| calls := calls s ++ [c]; logs := logs s |}.

Definition perform (c : call) : M unit :=
  fun w s =>
    match w_raises w c with
    | Some e => (Raise e, record c s)
    | None => (Ret tt, record c s)
    end.

(** [logging.exception(msg)] *)
Definition log (msg : string) : M unit :=
  fun _ s => (Ret tt, {| calls := calls s; logs := logs s ++ [msg] |}).

(** [discord.utils.utcnow()] *)
Definition utcnow : M datetime := fun w s => (Ret (w_now w), s).

(** [int(s)]: raises [ValueError] on a malformed number. *)
Definition int_of (s : string) : M Z :=
  match Py.int 10 s with
  | Some n => ret n
  | None => raise ValueError
  end.

Definition exn_str (e : exn) : string :=
  match e with
  | ValueError => "ValueError"
  | OSError => "OSError"
  | HTTPException => "HTTPException"
  | Forbidden => "Forbidden"
  | NotFound => "NotFound"
  | InteractionResponded => "InteractionResponded"
  end.

(** [interaction.response.send_message(content, ephemeral=...)] *)
Definition send_message (content : string) (ephemeral : bool) : M unit :=
  perform (Respond content ephemeral).

(** [guild.create_text_channel(...)]: the id of the new channel. *)
Definition create_text_channel (name : string) (category : option Z)
    (overwrites : gmap principal PermissionOverwrite) (reason : string) : M Z :=
  perform (CreateTextChannel name category overwrites reason) >>
  fun w s => (Ret (w_new_channel_id w), s).

(** [channel.history(limit=None, oldest_first=True)], read to its end.  The
    source keeps what it reads in memory until the loop is over, so a
    failure in the middle of the iteration and a failure at its start
    leave the same calls behind. *)
Definition channel_history (channel : Z) : M (list message) :=
  perform (History channel) >>
  fun w s => (Ret (w_history w channel), s).

(** ** Embed styling *)

(** [a or b] on optional strings. *)
Definition or_else (a b : option string) : option string :=
  if Py.truthy a then a else b.

(** [a or None] *)
Definition non_empty (a : option string) : option string :=
  if Py.truthy a then a else None.

(** [make_announcement_embed]; [now] is [discord.utils.utcnow()]. *)
Definition make_announcement_embed (cfg : config) (now : datetime)
    (text : string) (title color url thumbnail image footer
     author_name author_icon : option string) : Embed :=
  let chosen_color :=
    match parse_color cfg (or_else color (brand_get cfg brand_color)) with
    | Some c => c
    | None => orange
    end in
  let _author_name := or_else author_name (brand_get cfg brand_name) in
  let _author_icon :=
    non_empty (or_else author_icon (brand_get cfg brand_author_icon)) in
  let footer_text := or_else footer (brand_get cfg brand_footer_text) in
  {| embed_title := Py.or_default title "📣 Announcement";
     embed_description := text;
     embed_color := chosen_color;
     embed_url := non_empty url;
     embed_timestamp := now;
     embed_author :=
       match non_empty _author_name with
       | Some n => Some (n, _author_icon)
       | None => None
       end;
     embed_thumbnail := non_empty thumbnail;
     embed_image := non_empty image;
     embed_footer := non_empty footer_text |}.

(** ** Ticket system *)

(** The prefix that the ticket commands test channel names against:
    [(CONFIG.get("tickets") or {}).get("ticket_prefix", "ticket")]. *)
Definition guard_prefix (cfg : config) : string :=
  match cfg_tickets cfg with
  | Some t => Py.get_default (ticket_prefix t) "ticket"
  | None => "ticket"
  end.

(** The prefix of new channel names:
    [(tcfg.get("ticket_prefix") or "ticket").lower()]. *)
Definition name_prefix (cfg : config) : string :=
  Py.lower (Py.or_default (tickets_get cfg ticket_prefix) "ticket").

(** The channel name built by [create_ticket_channel]. *)
Definition ticket_channel_name (cfg : config) (opener : user) (iid : Z) : string :=
  name_prefix cfg ++ "-" ++ Py.lower (Py.take 20 (user_name opener)) ++ "-"
    ++ Py.format_0d 4 (iid mod 10000).

Definition allow : option bool := Some true.
Definition deny : option bool := Some false.

(** [PermissionOverwrite(view_channel=False)] *)
Definition everyone_overwrite : PermissionOverwrite :=
  {| view_channel := deny; send_messages := None; read_message_history := None;
     attach_files := None; embed_links := None; manage_channels := None;
     manage_messages := None |}.

Definition opener_overwrite : PermissionOverwrite :=
  {| view_channel := allow; send_messages := allow; read_message_history := allow;
     attach_files := allow; embed_links := allow; manage_channels := None;
     manage_messages := None |}.

Definition me_overwrite : PermissionOverwrite :=
  {| view_channel := allow; send_messages := allow; read_message_history := allow;
     attach_files := allow; embed_links := allow; manage_channels := allow;
     manage_messages := None |}.

Definition support_overwrite : PermissionOverwrite :=
  {| view_channel := allow; send_messages := allow; read_message_history := allow;
     attach_files := allow; embed_links := allow; manage_channels := None;
     manage_messages := allow |}.

(** The [overwrites] dictionary of [create_ticket_channel]: the literal
    with its three entries in source order, then the support role's entry
    when the role was found. *)
Definition ticket_overwrites (g : guild) (opener : user) (support_role : option Z)
  : gmap principal PermissionOverwrite :=
  let overwrites : gmap principal PermissionOverwrite :=
    <[MemberP (user_id (guild_me g)) := me_overwrite]>
      (<[MemberP (user_id opener) := opener_overwrite]>
         (<[RoleP (default_role g) := everyone_overwrite]> ∅)) in
  match support_role with
  | Some r => <[RoleP r := support_overwrite]> overwrites
  | None => overwrites
  end.

(** [guild.get_channel(int(id)) if id else None] *)
Definition lookup_channel (g : guild) (id : option string)
  : M (option (Z * channel_kind)) :=
  if Py.truthy id then
    let* n := int_of (Py.get_default id "") in ret (get_channel g n)
  else ret None.

(** [guild.get_role(int(id)) if id else None] *)
Definition lookup_role (g : guild) (id : option string) : M (option Z) :=
  if Py.truthy id then
    let* n := int_of (Py.get_default id "") in ret (get_role g n)
  else ret None.

Definition guild_notice : string := "❌ Tickets must be used in a server.".

Definition create_ticket_channel (cfg : config) (i : interaction) (opener : user)
    (reason : string) : M unit :=
  match interaction_guild i with
  | None => send_message guild_notice true
  | Some guild =>
      let category_id := tickets_get cfg category_id in
      let* category := lookup_channel guild category_id in
      let category :=
        match category with
        | Some (id, k) => if is_category k then Some id else None
        | None => None
        end in
      let support_role_id := tickets_get cfg support_role_id in
      let* support_role := lookup_role guild support_role_id in
      let channel_name := ticket_channel_name cfg opener (interaction_id i) in
      let overwrites := ticket_overwrites guild opener support_role in
      let* channel :=
        create_text_channel channel_name category overwrites
          ("Ticket opened by " ++ user_tag opener ++ " ("
             ++ Py.str_int (user_id opener) ++ ")") in
      let* now := utcnow in
      let intro :=
        make_announcement_embed cfg now
          ("**Ticket opened by " ++ user_mention opener ++ "**" ++ nl ++ nl
             ++ "**Reason:**" ++ nl ++ reason)
          (Some "🎟️ New Ticket") (Some "orange") None None None None None None in
      perform (Send channel None (Some intro) None) >>
      perform (Send channel
                 (Some (user_mention opener
                          ++ match support_role with
                             | Some r => " " ++ role_mention r
                             | None => ""
                             end))
                 None None) >>
      try_except
        (send_message ("✅ Ticket created: " ++ channel_mention channel) true)
        (fun e =>
           match e with
           | InteractionResponded => ret tt
           | _ => raise e
           end)
  end.

(** [os.path.join("transcripts", name)] *)
Definition transcript_path (name : string) : string :=
  if Py.startswith name "/" then name else "transcripts/" ++ name.

Fixpoint repeat_string (s : string) (n : nat) : string :=
  match n with
  | O => ""
  | S n' => s ++ repeat_string s n'
  end.

(** The three lines written before the messages. *)
Definition transcript_header (ch : channel) : list string :=
  [ "Transcript for #" ++ channel_name ch ++ " (" ++ Py.str_int (channel_id ch)
      ++ ") in " ++ guild_name (channel_guild ch) ++ nl;
    "Channel created at: " ++ dt_str (channel_created_at ch) ++ " UTC" ++ nl;
    repeat_string "=" 60 ++ nl ].

(** [for idx, e in enumerate(msg.embeds, start=idx): lines.append(...)] *)
Fixpoint embed_lines (ts author : string) (idx : Z) (embeds : list message_embed)
  : list string :=
  match embeds with
  | [] => []
  | e :: rest =>
      let title := Py.or_default (e_title e) "" in
      let desc := Py.or_default (e_description e) "" in
      ("[" ++ ts ++ "] " ++ author ++ " (EMBED " ++ Py.str_int idx ++ ") Title: "
         ++ title ++ nl ++ desc ++ nl)
        :: embed_lines ts author (idx + 1) rest
  end.

(** What one message appends to [lines]: the body of the history loop. *)
Definition message_lines (msg : message) : list string :=
  let author :=
    user_tag (msg_author msg) ++ " (" ++ Py.str_int (user_id (msg_author msg)) ++ ")" in
  let ts := strftime_utc (msg_created_at msg) in
  let content := msg_content msg in
  (match msg_embeds msg with
   | [] => []
   | embeds => embed_lines ts author 1 embeds
   end)
    ++ (match content with
        | EmptyString => []
        | _ => ["[" ++ ts ++ "] " ++ author ++ ": " ++ content ++ nl]
        end)
    ++ (match msg_attachments msg with
        | [] => []
        | attachments =>
            map (fun a => "[" ++ ts ++ "] " ++ author ++ " attached: " ++ a_url a ++ nl)
              attachments
        end).

(** The list [lines] after the loop over [history], oldest message first. *)
Definition transcript_lines (ch : channel) (history : list message) : list string :=
  fold_left (fun lines msg => (lines ++ message_lines msg)%list) history
    (transcript_header ch).

(** What [f.writelines(lines)] leaves in the file. *)
Definition file_content (lines : list string) : string :=
  fold_right String.append "" lines.

(** [generate_text_transcript] *)
Definition generate_text_transcript (ch : channel) : M string :=
  perform (MakeDirs "transcripts") >>
  let safe_name := channel_name ch ++ "-" ++ Py.str_int (channel_id ch) ++ ".txt" in
  let path := transcript_path safe_name in
  let* history := channel_history (channel_id ch) in
  let lines := transcript_lines ch history in
  perform (WriteLines path lines) >>
  ret path.

(** The test at the top of the four ticket commands:
    [not isinstance(ch, discord.TextChannel) or not ch.name.startswith(prefix)]. *)
Definition not_ticket_channel (cfg : config) (ch : option channel) : bool :=
  match ch with
  | None => true
  | Some c =>
      negb (is_text (channel_type c))
      || negb (Py.startswith (channel_name c) (guard_prefix cfg))
  end.

Definition rejection : string := "❌ Use this inside a ticket channel.".

Definition ticket_claim (cfg : config) (i : interaction) : M unit :=
  let ch := interaction_channel i in
  if not_ticket_channel cfg ch then send_message rejection true
  else
    send_message ("🛠️ Ticket claimed by " ++ user_mention (interaction_user i) ++ ".")
      false.

Definition ticket_add (cfg : config) (i : interaction) (user : user) : M unit :=
  match interaction_channel i with
  | Some ch =>
      if not_ticket_channel cfg (Some ch) then send_message rejection true
      else
        perform (SetPermissions (channel_id ch) (MemberP (user_id user))
                   (Some opener_overwrite)) >>
        send_message ("✅ Added " ++ user_mention user ++ " to this ticket.") false
  | None => send_message rejection true
  end.

Definition ticket_remove (cfg : config) (i : interaction) (user : user) : M unit :=
  match interaction_channel i with
  | Some ch =>
      if not_ticket_channel cfg (Some ch) then send_message rejection true
      else
        perform (SetPermissions (channel_id ch) (MemberP (user_id user)) None) >>
        send_message ("✅ Removed " ++ user_mention user ++ " from this ticket.") false
  | None => send_message rejection true
  end.

Definition closing_notice : string := "🔒 Closing ticket and generating transcript...".

(** The embed that announces the closing, in [ticket_close]. *)
Definition close_embed (cfg : config) (now : datetime) (ch : channel) (actor : user)
    (reason : option string) : Embed :=
  make_announcement_embed cfg now
    ("Ticket **#" ++ channel_name ch ++ "** closed by " ++ user_mention actor ++ "."
       ++ nl
       ++ (if Py.truthy reason then "**Reason:** " ++ Py.get_default reason "" else ""))
    (Some "✅ Ticket Closed") (Some "green") None None None None None None.

Definition ticket_close (cfg : config) (i : interaction) (reason : option string)
  : M unit :=
  match interaction_channel i with
  | Some ch =>
      if not_ticket_channel cfg (Some ch) then send_message rejection true
      else
        send_message closing_notice true >>
        let* filepath := generate_text_transcript ch in
        let transcripts_channel_id := tickets_get cfg transcripts_channel_id in
        let* transcripts_ch := lookup_channel (channel_guild ch) transcripts_channel_id in
        let* now := utcnow in
        let close_embed := close_embed cfg now ch (interaction_user i) reason in
        (match transcripts_ch with
         | Some (id, TextChannel) =>
             try_except
               (perform (Send id None (Some close_embed) (Some filepath)))
               (fun e => log ("Failed to post transcript: " ++ exn_str e))
         | _ => ret tt
         end) >>
        try_except
          (perform (Send (channel_id ch) None (Some close_embed) (Some filepath)))
          (fun _ => ret tt) >>
        try_except
          (perform (DeleteChannel (channel_id ch) (Py.or_default reason "Ticket closed")))
          (fun e => log ("Failed to delete channel: " ++ exn_str e))
  | None => send_message rejection true
  end.

(** Running a command from the initial state. *)
Definition run {A} (m : M A) (w : world) : outcome A * state := m w initial.

(** ** Vocabulary of the properties *)

(** *** Colours *)

(** The non-empty branch of [parse_color] (lines 74 to 81 of the source). *)
Definition color_of (value : string) : Z :=
  let v := Py.lower (Py.strip value) in
  match color_lookup COLOR_MAP v with
  | Some c => c
  | None =>
      match Py.int 16 (Py.lstrip_hash v) with
      | Some n => Z.land n 0xFFFFFF
      | None => orange
      end
  end.

(** A hexadecimal digit as text: the digit is [d mod 16], in upper case
    when [upper] is set. *)
Definition hex_digit_char (d : Z) (upper : bool) : ascii :=
  if d <? 10 then Py.chr (48 + d)
  else if upper then Py.chr (55 + d) else Py.chr (87 + d).

Definition hex_char (d : Z * bool) : ascii := hex_digit_char (fst d mod 16) (snd d).

Definition hex_text (ds : list (Z * bool)) : string :=
  fold_right (fun d s => String (hex_char d) s) "" ds.

(** The number that a digit sequence denotes in base 16. *)
Definition hex_number (ds : list (Z * bool)) : Z :=
  fold_left (fun acc d => acc * 16 + fst d mod 16) ds 0.

(** [k] number signs. *)
Definition hashes (k : nat) : string := repeat_string "#" k.

(** [all(p(c) for c in s)] *)
Fixpoint string_forallb (p : ascii -> bool) (s : string) : bool :=
  match s with
  | EmptyString => true
  | String c r => p c && string_forallb p r
  end.

Definition is_hex_digit (c : ascii) : bool :=
  match Py.digit_in 16 c with
  | Some _ => true
  | None => false
  end.

(** *** Channel names *)


Definition is_decimal_digit (c : ascii) : bool :=
  match Py.digit_in 10 c with
  | Some _ => true
  | None => false
  end.


(** [int(text) == m] *)
Definition denotes (text : string) (m : Z) : bool :=
  match Py.int 10 text with
  | Some v => v =? m
  | None => false
  end.

(** *** Access rules *)

Definition denies_view (ow : gmap principal PermissionOverwrite) (p : principal)
  : Prop :=
  exists o, ow !! p = Some o /\ view_channel o = Some false.

(** View, send and read-history are granted. *)
Definition grants_access (ow : gmap principal PermissionOverwrite) (p : principal)
  : Prop :=
  exists o, ow !! p = Some o
            /\ view_channel o = Some true
            /\ send_messages o = Some true
            /\ read_message_history o = Some true.

(** The rule set keeps the channel private between the opener and the
    service principal. *)
Definition private_rule_set (g : guild) (opener : user)
    (ow : gmap principal PermissionOverwrite) : Prop :=
  denies_view ow (RoleP (default_role g))
  /\ grants_access ow (MemberP (user_id opener))
  /\ grants_access ow (MemberP (user_id (guild_me g))).

(** The support role that [create_ticket_channel] finds, when the
    configured id is a number. *)
Definition resolved_support_role (cfg : config) (g : guild) : option Z :=
  let id := tickets_get cfg support_role_id in
  if Py.truthy id then
    match Py.int 10 (Py.get_default id "") with
    | Some n => get_role g n
    | None => None
    end
  else None.

(** Every rule set that an Open request hands to the platform is private. *)
Definition open_is_private (cfg : config) (i : interaction) (opener : user)
    (reason : string) (w : world) : Prop :=
  forall g name category ow why,
    interaction_guild i = Some g ->
    In (CreateTextChannel name category ow why)
       (calls (snd (run (create_ticket_channel cfg i opener reason) w))) ->
    private_rule_set g opener ow.

(** *** Invariants of the recorded calls *)

(** If every call recorded so far satisfies [P], so does every call
    recorded after [m]. *)
Definition preserves {A} (P : call -> Prop) (m : M A) : Prop :=
  forall w s, Forall P (calls s) -> Forall P (calls (snd (m w s))).

(** A value returned by [m] satisfies [Q]. *)
Definition returns {A} (Q : A -> Prop) (m : M A) : Prop :=
  forall w s a s', m w s = (Ret a, s') -> Q a.

(** What an Open request asks the platform to create. *)
Definition open_call_ok (cfg : config) (i : interaction) (opener : user) (g : guild)
    (c : call) : Prop :=
  match c with
  | CreateTextChannel name _ ow _ =>
      name = ticket_channel_name cfg opener (interaction_id i)
      /\ ow = ticket_overwrites g opener (resolved_support_role cfg g)
  | _ => True
  end.

(** *** Rejections *)

(** The command does what the rejection notice alone does, and leaves the
    notice as its only record. *)
Definition rejected_without_effect (m : M unit) (w : world) : Prop :=
  run m w = run (send_message rejection true) w
  /\ snd (run m w) = {| calls := [Respond rejection true]; logs := [] |}.

(** *** Failures of Open *)

(** A channel creation was attempted and raised. *)
Definition creation_failed (w : world) (cs : list call) : Prop :=
  exists name category ow why e,
    In (CreateTextChannel name category ow why) cs
    /\ w_raises w (CreateTextChannel name category ow why) = Some e.

(** Some answer was sent to the invoking actor. *)
Definition actor_answered (cs : list call) : Prop :=
  exists content ephemeral, In (Respond content ephemeral) cs.

(** A failed creation is reported to the actor. *)
Definition open_failure_reported (cfg : config) (i : interaction) (opener : user)
    (reason : string) (w : world) : Prop :=
  let cs := calls (snd (run (create_ticket_channel cfg i opener reason) w)) in
  creation_failed w cs -> actor_answered cs.

(** *** Closing *)

Definition is_write (c : call) : bool :=
  match c with WriteLines _ _ => true | _ => false end.

(** A message that carries a file. *)
Definition is_delivery (c : call) : bool :=
  match c with Send _ _ _ (Some _) => true | _ => false end.

Definition is_delete (c : call) : bool :=
  match c with DeleteChannel _ _ => true | _ => false end.

(** The calls of the transcript recorder. *)
Definition is_recorder_call (c : call) : bool :=
  match c with
  | MakeDirs _ | History _ | WriteLines _ _ => true
  | _ => false
  end.



(** The recorder raises. *)
Definition recorder_fails (ch : channel) (w : world) : Prop :=
  exists e st, run (generate_text_transcript ch) w = (Raise e, st).

(** When the recorder raises in a ticket channel, Close neither delivers
    nor deletes, and it tells the actor more than that it is closing. *)
Definition close_failure_reported (cfg : config) (i : interaction)
    (reason : option string) (w : world) : Prop :=
  forall ch,
    interaction_channel i = Some ch ->
    not_ticket_channel cfg (Some ch) = false ->
    recorder_fails ch w ->
    let cs := calls (snd (run (ticket_close cfg i reason) w)) in
    forallb (fun c => negb (is_delivery c || is_delete c)) cs = true
    /\ exists content ephemeral,
         In (Respond content ephemeral) cs /\ content <> closing_notice.

(** *** Transcripts *)

(** What the claim counts for one message: its embeds, its text when
    there is one, its attachments. *)
Definition content_units (m : message) : nat :=
  (List.length (msg_embeds m)
   + (match msg_content m with EmptyString => 0 | _ => 1 end)
   + List.length (msg_attachments m))%nat.

Definition total_units (history : list message) : nat :=
  list_sum (map content_units history).

(** The same count with two lines for each embed. *)
Definition physical_units (m : message) : nat :=
  (2 * List.length (msg_embeds m)
   + (match msg_content m with EmptyString => 0 | _ => 1 end)
   + List.length (msg_attachments m))%nat.

(** The number of newline-terminated lines of a text. *)
Fixpoint count_lines (text : string) : nat :=
  match text with
  | EmptyString => 0
  | String c rest =>
      ((if Ascii.eqb c (ascii_of_nat 10) then 1 else 0) + count_lines rest)%nat
  end.

(** The claim about the number of lines, read on the text of the
    artifact. *)
Definition line_count_claim (ch : channel) (history : list message) : Prop :=
  count_lines (file_content (transcript_lines ch history))
  = (3 + total_units history)%nat.





(** ** Sample data *)

Definition sample_time : datetime :=
  {| year := 2024; month := 5; day := 17;
     hour := 9; minute := 30; second := 0; microsecond := 0 |}.

Definition alice : user :=
  {| user_id := 42; user_name := "alice"; user_tag := "alice" |}.

Definition staff1 : user :=
  {| user_id := 43; user_name := "staff1"; user_tag := "staff1" |}.

Definition tiger : user :=
  {| user_id := 7; user_name := "Rusty Tiger"; user_tag := "Rusty Tiger#0001" |}.

(** A guild with id 100, a support role 200, an archive channel 300 and a
    ticket category 301. *)
Definition den : guild :=
  {| guild_id := 100; guild_name := "Den"; guild_roles := [200];
     guild_channels := [(300, TextChannel); (301, CategoryChannel)];
     guild_me := tiger |}.

Definition sample_tickets (support_role : string) (prefix : string) : config :=
  {| cfg_brand := cfg_brand default_config;
     cfg_tickets := Some {| category_id := Some "301";
                            support_role_id := Some support_role;
                            transcripts_channel_id := Some "300";
                            ticket_prefix := Some prefix |} |}.

Definition lobby : channel :=
  {| channel_id := 400; channel_name := "general"; channel_type := TextChannel;
     channel_created_at := sample_time; channel_guild := den |}.

Definition ticket_channel : channel :=
  {| channel_id := 555; channel_name := "ticket-alice-6789";
     channel_type := TextChannel; channel_created_at := sample_time;
     channel_guild := den |}.

(** A message that carries one embed and nothing else. *)
Definition embed_only : message :=
  {| msg_author := tiger; msg_created_at := sample_time; msg_content := "";
     msg_embeds := [{| e_title := Some "New Ticket";
                       e_description := Some "billing issue" |}];
     msg_attachments := [] |}.

(** A message with text and two attachments, one second later. *)
Definition text_and_files : message :=
  {| msg_author := alice;
     msg_created_at :=
       {| year := 2024; month := 5; day := 17;
          hour := 9; minute := 30; second := 1; microsecond := 0 |};
     msg_content := "see the screenshots";
     msg_embeds := [];
     msg_attachments := [{| a_url := "https://cdn.example/1.png" |};
                         {| a_url := "https://cdn.example/2.png" |}] |}.

(** A world in which no call fails and the history is [history]. *)
Definition quiet (history : list message) : world :=
  {| w_now := sample_time; w_raises := fun _ => None;
     w_history := fun _ => history; w_new_channel_id := 555 |}.

(** A world in which the platform refuses to create channels. *)
Definition no_new_channels : world :=
  {| w_now := sample_time;
     w_raises := fun c =>
       match c with
       | CreateTextChannel _ _ _ _ => Some Forbidden
       | _ => None
       end;
     w_history := fun _ => []; w_new_channel_id := 555 |}.

(** A world in which the history of a channel cannot be read. *)
Definition no_history : world :=
  {| w_now := sample_time;
     w_raises := fun c =>
       match c with
       | History _ => Some HTTPException
       | _ => None
       end;
     w_history := fun _ => []; w_new_channel_id := 555 |}.


(** A direct message: no guild and no guild channel. *)
Definition from_dm (u : user) : interaction :=
  {| interaction_id := 123456788; interaction_guild := None;
     interaction_channel := None; interaction_user := u |}.

Definition from_lobby (u : user) : interaction :=
  {| interaction_id := 123456789; interaction_guild := Some den;
     interaction_channel := Some lobby; interaction_user := u |}.

Definition from_ticket (u : user) : interaction :=
  {| interaction_id := 123456790; interaction_guild := Some den;
     interaction_channel := Some ticket_channel; interaction_user := u |}.

(** A configuration whose brand colour is blue. *)
Definition blue_brand : config :=
  {| cfg_brand := Some {| brand_name := Some "Rusty Tiger";
                          brand_color := Some "blue";
                          brand_author_icon := None;
                          brand_footer_text := None |};
     cfg_tickets := cfg_tickets default_config |}.

(** *** Open *)

(** A configured id is usable: it is absent or empty, or it is a number. *)
Definition well_formed_id (id : option string) : bool :=
  negb (Py.truthy id)
  || match Py.int 10 (Py.get_default id "") with Some _ => true | None => false end.

(** The category that [create_ticket_channel] finds: the configured id,
    when it is the id of a category channel of the guild. *)
Definition resolved_category (cfg : config) (g : guild) : option Z :=
  let id := tickets_get cfg category_id in
  if Py.truthy id then
    match Py.int 10 (Py.get_default id "") with
    | Some n =>
        match get_channel g n with
        | Some (c, k) => if is_category k then Some c else None
        | None => None
        end
    | None => None
    end
  else None.

Definition is_create (c : call) : bool :=
  match c with CreateTextChannel _ _ _ _ => true | _ => false end.

Definition is_send (c : call) : bool :=
  match c with Send _ _ _ _ => true | _ => false end.

Definition is_respond (c : call) : bool :=
  match c with Respond _ _ => true | _ => false end.

(** The category of every channel that an Open request asks for. *)
Definition open_category_ok (cfg : config) (g : guild) (c : call) : Prop :=
  match c with
  | CreateTextChannel _ category _ _ => category = resolved_category cfg g
  | _ => True
  end.


(** *** Decimal texts *)

(** The number that a text of decimal digits denotes, continuing [acc]. *)
Fixpoint dec_value_from (acc : Z) (s : string) : Z :=
  match s with
  | EmptyString => acc
  | String c r => dec_value_from (acc * 10 + (Py.ord c - 48)) r
  end.

Definition dec_value (s : string) : Z := dec_value_from 0 s.

(** The text has no line break. *)
Definition newline_free (s : string) : Prop := count_lines s = 0%nat.

(** The number of hyphens of a text. *)
Fixpoint count_hyphens (s : string) : nat :=
  match s with
  | EmptyString => 0
  | String c r => ((if Ascii.eqb c "-" then 1 else 0) + count_hyphens r)%nat
  end.

(** The file that [generate_text_transcript] writes for a channel. *)
Definition transcript_file (ch : channel) : string :=
  transcript_path (channel_name ch ++ "-" ++ Py.str_int (channel_id ch) ++ ".txt").

(** *** Texts of the transcript *)

Definition ends_with_newline (s : string) : Prop := exists t, s = t ++ nl.

(** No text of the message holds a line break. *)
Definition message_plain (m : message) : Prop :=
  newline_free (user_tag (msg_author m))
  /\ newline_free (msg_content m)
  /\ Forall (fun e => newline_free (Py.or_default (e_title e) "")
                      /\ newline_free (Py.or_default (e_description e) ""))
       (msg_embeds m)
  /\ Forall (fun a => newline_free (a_url a)) (msg_attachments m).

(** *** Channel overwrites on the platform *)

(** The overwrites of channel [ch] after the calls [cs]: a permission edit
    that did not raise sets the entry of its target, or deletes it when no
    overwrite is given. *)
Definition overwrites_after (w : world) (cs : list call) (ch : Z)
    (store : gmap principal PermissionOverwrite)
  : gmap principal PermissionOverwrite :=
  fold_left
    (fun st c =>
       match c with
       | SetPermissions ch' p o =>
           if (ch' =? ch)
              && match w_raises w c with None => true | Some _ => false end
           then match o with
                | Some bundle => <[p := bundle]> st
                | None => delete p st
                end
           else st
       | _ => st
       end)
    cs store.

(** A world in which the platform refuses permission edits. *)
Definition no_permission_edits : world :=
  {| w_now := sample_time;
     w_raises := fun c =>
       match c with
       | SetPermissions _ _ _ => Some Forbidden
       | _ => None
       end;
     w_history := fun _ => []; w_new_channel_id := 555 |}.

(** ** Escape sequences typed in a command argument *)

(** [strip_prefix p s] is what follows the prefix [p] of [s]. *)
Fixpoint strip_prefix (p s : string) {struct p} : option string :=
  match p with
  | EmptyString => Some s
  | String a p' =>
      match s with
      | EmptyString => None
      | String b s' => if Ascii.eqb a b then strip_prefix p' s' else None
      end
  end.

(** [s.replace(old, new)]: the occurrences of [old] are taken from the
    left and do not overlap; the fuel is the length of [s], one unit for
    each step of the scan.  An empty [old] matches in front of every
    character and at the end. *)
Fixpoint replace_fuel (n : nat) (old new s : string) : string :=
  match n with
  | O => s
  | S n' =>
      match strip_prefix old s with
      | Some rest => new ++ replace_fuel n' old new rest
      | None =>
          match s with
          | EmptyString => EmptyString
          | String c t => String c (replace_fuel n' old new t)
          end
      end
  end.

Fixpoint interleave (new s : string) : string :=
  match s with
  | EmptyString => new
  | String c t => new ++ String c (interleave new t)
  end.

Definition replace (old new s : string) : string :=
  match old with
  | EmptyString => interleave new s
  | _ => replace_fuel (String.length s) old new s
  end.

(** The tab character. *)
Definition tab : string := String (ascii_of_nat 9) EmptyString.

(** In the literals below a backslash stands for itself: ["\r\n"] is the
    four characters backslash, r, backslash, n. *)
Definition normalize_multiline (s : option string) : option string :=
  match s with
  | None => None
  | Some s => Some (replace "\t" tab (replace "\n" nl (replace "\r\n" nl s)))
  end.

(** [p in s] *)
Fixpoint occurs (p s : string) : bool :=
  Py.startswith s p
  || match s with
     | EmptyString => false
     | String _ t => occurs p t
     end.

(** Text without a backslash. *)
Definition backslash_free (s : string) : bool :=
  string_forallb (fun c => negb (Ascii.eqb c "\")) s.


(** The text begins with the character [b]. *)
Definition starts (b : ascii) (t : string) : bool :=
  match t with
  | String y _ => Ascii.eqb b y
  | EmptyString => false
  end.

Definition two_chars (a b : ascii) : string := String a (String b EmptyString).
Definition one_char (c : ascii) : string := String c EmptyString.

(** ** Link buttons of an announcement *)

(** One entry of the buttons list: a JSON object whose values are strings;
    [None] is an absent key. *)
Record button_entry := {
  entry_label : option string;
  entry_url : option string
}.

Record Button := {
  button_label : string;
  button_url : string
}.

Definition is_link (burl : string) : bool :=
  Py.startswith burl "http://" || Py.startswith burl "https://".

Definition to_button (b : button_entry) : Button :=
  {| button_label := Py.get_default (entry_label b) "Open";
     button_url := Py.get_default (entry_url b) "https://discord.com" |}.

(** One turn of the loop of [LinkButtons.__init__]. *)
Definition add_link (items : list Button) (b : button_entry) : list Button :=
  let label := Py.get_default (entry_label b) "Open" in
  let burl := Py.get_default (entry_url b) "https://discord.com" in
  if Py.startswith burl "http://" || Py.startswith burl "https://"
  then app items [{| button_label := label; button_url := burl |}]
  else items.

(** The items of the view built by [LinkButtons(buttons)]. *)
Definition LinkButtons (buttons : option (list button_entry)) : list Button :=
  let buttons := match buttons with Some (b :: r) => b :: r | _ => [] end in
  fold_left add_link (firstn 5 buttons) [].

(** An entry that yields a button. *)
Definition yields_button (b : button_entry) : bool :=
  is_link (button_url (to_button b)).

(** * Properties *)

Example int_hex : Py.int 16 "d97706" = Some 0xD97706. Proof. reflexivity. Qed.
Example int_bogus : Py.int 16 "bogus" = None. Proof. reflexivity. Qed.
Example int_ws : Py.int 16 " 0x_fF_0 " = Some 0xFF0. Proof. reflexivity. Qed.
Example int_neg : Py.int 16 "-ff" = Some (-255). Proof. reflexivity. Qed.
Example int_us : Py.int 16 "f__f" = None. Proof. reflexivity. Qed.
Example fmt1 : Py.format_0d 4 7 = "0007". Proof. reflexivity. Qed.
Example fmt2 : Py.format_0d 4 12345 = "12345". Proof. reflexivity. Qed.
Example fmt3 : Py.format_0d 4 (-5) = "-005". Proof. reflexivity. Qed.
Example str1 : Py.str_int 1234567890123 = "1234567890123". Proof. reflexivity. Qed.
Example str0 : Py.str_int 0 = "0". Proof. reflexivity. Qed.
Example strip1 : Py.strip "  a b  " = "a b". Proof. reflexivity. Qed.
Example lower1 : Py.lower "AbZ_09" = "abz_09". Proof. reflexivity. Qed.
Example pc1 : parse_color default_config (Some "#D97706") = Some 0xD97706. Proof. reflexivity. Qed.
Example pc2 : parse_color default_config (Some "#- 1") = Some orange. Proof. reflexivity. Qed.
Example pc3 : parse_color default_config (Some "-1") = Some 0xFFFFFF. Proof. reflexivity. Qed.
Example pc4 : parse_color default_config None = Some 0xD97706. Proof. reflexivity. Qed.
Example pc5 : parse_color default_config (Some " Blue ") = Some 0x3B82F6. Proof. reflexivity. Qed.

(** ** [parse_color] *)

Lemma land_mask_mod (n : Z) : Z.land n 0xFFFFFF = n mod 2 ^ 24.
Proof. change 0xFFFFFF with (Z.ones 24). apply Z.land_ones. lia. Qed.

Lemma land_mask_range (n : Z) : 0 <= Z.land n 0xFFFFFF <= 0xFFFFFF.
Proof.
  rewrite land_mask_mod.
  pose proof (Z.mod_pos_bound n (2 ^ 24) ltac:(lia)). lia.
Qed.

Lemma color_lookup_In (table : list (string * Z)) (k : string) (c : Z) :
  color_lookup table k = Some c -> In (k, c) table.
Proof.
  induction table as [|[name v] rest IH]; simpl; [discriminate|].
  destruct (String.eqb k name) eqn:E.
  - apply String.eqb_eq in E. intros [= ->]. left. congruence.
  - intros H. right. auto.
Qed.

Lemma color_table_range (k : string) (c : Z) :
  In (k, c) COLOR_MAP -> 0 <= c <= 0xFFFFFF.
Proof.
  unfold COLOR_MAP. simpl.
  intros H. repeat (destruct H as [[= <- <-]|H]; [lia|]). destruct H.
Qed.

Lemma color_of_range (value : string) : 0 <= color_of value <= 0xFFFFFF.
Proof.
  unfold color_of.
  destruct (color_lookup COLOR_MAP _) as [c|] eqn:E.
  - eapply color_table_range, color_lookup_In, E.
  - destruct (Py.int 16 _); [apply land_mask_range | unfold orange; lia].
Qed.

(** One level of [parse_color] on a non-empty value. *)
Lemma parse_color_fuel_value (n : nat) (cfg : config) (value : string) :
  Py.truthy (Some value) = true ->
  parse_color_fuel (S n) cfg (Some value) = Some (color_of value).
Proof.
  intros H. cbn [parse_color_fuel]. rewrite H. cbn [negb Py.get_default].
  unfold color_of.
  destruct (color_lookup COLOR_MAP _); [reflexivity|].
  destruct (Py.int 16 _); reflexivity.
Qed.

Lemma truthy_Some (v : option string) :
  Py.truthy v = true -> exists s, v = Some s.
Proof. destruct v as [s|]; [eauto | discriminate]. Qed.

(** One level of [parse_color] on an absent or empty value. *)
Lemma parse_color_fuel_empty (n : nat) (cfg : config) (value : option string) :
  Py.truthy value = false ->
  parse_color_fuel (S n) cfg value =
  if Py.truthy (brand_get cfg brand_color)
  then parse_color_fuel n cfg (brand_get cfg brand_color)
  else Some orange.
Proof. intros H. cbn [parse_color_fuel]. rewrite H. reflexivity. Qed.

(** The result of [parse_color] in closed form, for any fuel from 2 on. *)
Lemma parse_color_fuel_closed (k : nat) (cfg : config) (value : option string) :
  parse_color_fuel (S (S k)) cfg value =
  Some (if Py.truthy value then color_of (Py.get_default value "")
        else if Py.truthy (brand_get cfg brand_color)
             then color_of (Py.get_default (brand_get cfg brand_color) "")
             else orange).
Proof.
  destruct (Py.truthy value) eqn:T.
  - destruct (truthy_Some _ T) as [s ->].
    rewrite parse_color_fuel_value by exact T. reflexivity.
  - rewrite parse_color_fuel_empty by exact T.
    destruct (Py.truthy (brand_get cfg brand_color)) eqn:B; [|reflexivity].
    destruct (truthy_Some _ B) as [s Hs]. rewrite Hs in *.
    rewrite parse_color_fuel_value by exact B. reflexivity.
Qed.

Lemma parse_color_closed (cfg : config) (value : option string) :
  parse_color cfg value =
  Some (if Py.truthy value then color_of (Py.get_default value "")
        else if Py.truthy (brand_get cfg brand_color)
             then color_of (Py.get_default (brand_get cfg brand_color) "")
             else orange).
Proof. apply (parse_color_fuel_closed 0). Qed.

(** Two levels always return, and any further level returns the same. *)
Lemma parse_color_fuel_enough (k : nat) (cfg : config) (value : option string) :
  parse_color_fuel (2 + k) cfg value = parse_color cfg value.
Proof.
  rewrite parse_color_closed. apply (parse_color_fuel_closed k).
Qed.

(** C8: [parse_color] on "#D97706", "orange" and "bogus" is 0xD97706, and on
    an absent or empty value it is the parse of the brand colour of the
    configuration. *)
Theorem parse_color_examples (cfg : config) :
  parse_color cfg (Some "#D97706") = Some 0xD97706
  /\ parse_color cfg (Some "orange") = Some 0xD97706
  /\ parse_color cfg (Some "bogus") = Some 0xD97706
  /\ parse_color cfg None = parse_color cfg (brand_get cfg brand_color)
  /\ parse_color cfg (Some "") = parse_color cfg (brand_get cfg brand_color).
Proof.
  repeat split; try reflexivity.
  - rewrite (parse_color_closed cfg None), (parse_color_closed cfg (brand_get _ _)).
    cbn [Py.truthy]. destruct (Py.truthy (brand_get cfg brand_color)); reflexivity.
  - rewrite (parse_color_closed cfg (Some "")), (parse_color_closed cfg (brand_get _ _)).
    cbn [Py.truthy]. destruct (Py.truthy (brand_get cfg brand_color)); reflexivity.
Qed.

(** *** Hexadecimal texts *)

Lemma mod16_cases (d : Z) :
  In (d mod 16) [0; 1; 2; 3; 4; 5; 6; 7; 8; 9; 10; 11; 12; 13; 14; 15].
Proof. pose proof (Z.mod_pos_bound d 16 ltac:(lia)). simpl. lia. Qed.

Definition lower_digit (d : Z * bool) : Z * bool := (fst d, false).

(** Case analysis on the sixteen values of a digit and its two cases. *)
Ltac hex_cases d :=
  let H := fresh "H" in
  destruct d as [d [|]]; unfold hex_char, lower_digit; cbn [fst snd];
  pose proof (mod16_cases d) as H; simpl in H;
  repeat (destruct H as [<-|H]; [try reflexivity|]); try destruct H.

Lemma hex_char_not_space (d : Z * bool) : Py.isspace (hex_char d) = false.
Proof. hex_cases d. Qed.

Lemma hex_char_lower (d : Z * bool) : Py.lower_char (hex_char d) = hex_char (lower_digit d).
Proof. hex_cases d. Qed.

Lemma hex_char_not_hash (d : Z * bool) : Ascii.eqb (hex_char d) "#" = false.
Proof. hex_cases d. Qed.

Lemma hex_char_not_int_space (d : Z * bool) : Py.int_space (hex_char d) = false.
Proof. hex_cases d. Qed.

Lemma hex_char_not_underscore (d : Z * bool) : Ascii.eqb (hex_char d) "_" = false.
Proof. hex_cases d. Qed.

Lemma hex_char_digit (d : Z * bool) : Py.digit_in 16 (hex_char d) = Some (fst d mod 16).
Proof. hex_cases d. Qed.

Lemma hex_char_no_sign (d : Z * bool) (r : string) :
  Py.skip_sign (String (hex_char d) r) = (false, String (hex_char d) r).
Proof. hex_cases d. Qed.

Lemma hex_char_not_x (d : Z * bool) :
  Ascii.eqb (hex_char d) "x" || Ascii.eqb (hex_char d) "X" = false.
Proof. hex_cases d. Qed.

Lemma hex_text_cons (d : Z * bool) (ds : list (Z * bool)) :
  hex_text (d :: ds) = String (hex_char d) (hex_text ds).
Proof. reflexivity. Qed.

Lemma hex_text_no_prefix (d : Z * bool) (ds : list (Z * bool)) :
  Py.skip_prefix 16 (hex_text (d :: ds)) = hex_text (d :: ds).
Proof.
  unfold Py.skip_prefix. cbn [Z.eqb Pos.eqb]. rewrite hex_text_cons.
  destruct ds as [|d' ds].
  - cbn [hex_text fold_right].
    destruct (hex_char d) as [[] [] [] [] [] [] [] []]; reflexivity.
  - rewrite hex_text_cons, hex_char_not_x.
    destruct (hex_char d) as [[] [] [] [] [] [] [] []]; reflexivity.
Qed.

Lemma hex_text_lower (ds : list (Z * bool)) :
  Py.lower (hex_text ds) = hex_text (map lower_digit ds).
Proof.
  induction ds as [|d ds IH]; [reflexivity|].
  cbn [map]. rewrite !hex_text_cons. cbn [Py.lower].
  now rewrite hex_char_lower, IH.
Qed.

Lemma hex_number_lower (ds : list (Z * bool)) :
  hex_number (map lower_digit ds) = hex_number ds.
Proof.
  unfold hex_number. generalize 0.
  induction ds as [|d ds IH]; intros acc; [reflexivity|].
  cbn [map fold_left]. apply IH.
Qed.

(** The digit loop reads a hexadecimal text to its end. *)
Lemma scan_hex_text (ds : list (Z * bool)) (n : nat) (acc : Z) :
  Py.scan_digits 16 (hex_text ds) false n acc =
  Some (fold_left (fun a d => a * 16 + fst d mod 16) ds acc,
        (n + List.length ds)%nat, "").
Proof.
  revert n acc. induction ds as [|d ds IH]; intros n acc.
  - cbn. now rewrite Nat.add_0_r.
  - rewrite hex_text_cons. cbn [Py.scan_digits fold_left List.length].
    rewrite hex_char_not_underscore, hex_char_digit, IH.
    do 3 f_equal. lia.
Qed.

(** [int(text, 16)] of a non-empty run of hexadecimal digits. *)
Lemma int_hex_text (d : Z * bool) (ds : list (Z * bool)) :
  Py.int 16 (hex_text (d :: ds)) = Some (hex_number (d :: ds)).
Proof.
  unfold Py.int.
  assert (Py.lstrip_by Py.int_space (hex_text (d :: ds)) = hex_text (d :: ds)) as ->.
  { rewrite hex_text_cons. cbn [Py.lstrip_by]. now rewrite hex_char_not_int_space. }
  rewrite hex_text_cons at 1. rewrite hex_char_no_sign, <- hex_text_cons.
  rewrite hex_text_no_prefix, scan_hex_text, hex_text_cons.
  pose proof (hex_char_not_underscore d) as U.
  destruct (hex_char d) as [[] [] [] [] [] [] [] []]; try discriminate U; reflexivity.
Qed.

(** *** Stripping and lowering *)

Lemma append_cons (c : ascii) (a b : string) : String c a ++ b = String c (a ++ b).
Proof. reflexivity. Qed.

Lemma append_nil (b : string) : "" ++ b = b.
Proof. reflexivity. Qed.

Lemma string_forallb_app (p : ascii -> bool) (a b : string) :
  string_forallb p (a ++ b) = string_forallb p a && string_forallb p b.
Proof.
  induction a as [|c a IH]; [reflexivity|].
  rewrite append_cons. cbn [string_forallb]. now rewrite IH, andb_assoc.
Qed.

Lemma lstrip_by_none (p : ascii -> bool) (s : string) :
  string_forallb (fun c => negb (p c)) s = true -> Py.lstrip_by p s = s.
Proof.
  destruct s as [|c r]; [reflexivity|].
  cbn [string_forallb Py.lstrip_by].
  destruct (p c); [discriminate | reflexivity].
Qed.

Lemma rstrip_by_none (p : ascii -> bool) (s : string) :
  string_forallb (fun c => negb (p c)) s = true -> Py.rstrip_by p s = s.
Proof.
  induction s as [|c r IH]; [reflexivity|].
  cbn [string_forallb Py.rstrip_by]. intros H.
  apply andb_prop in H as [Hc Hr]. rewrite (IH Hr).
  destruct r; [|reflexivity].
  destruct (p c); [discriminate | reflexivity].
Qed.

Lemma strip_none (s : string) :
  string_forallb (fun c => negb (Py.isspace c)) s = true -> Py.strip s = s.
Proof.
  intros H. unfold Py.strip. now rewrite lstrip_by_none, rstrip_by_none.
Qed.

Lemma lower_app (a b : string) : Py.lower (a ++ b) = Py.lower a ++ Py.lower b.
Proof.
  induction a as [|c a IH]; [reflexivity|].
  rewrite append_cons. cbn [Py.lower]. now rewrite IH, append_cons.
Qed.

Lemma hashes_S (k : nat) : hashes (S k) = String "#" (hashes k).
Proof. reflexivity. Qed.

Lemma hashes_lower (k : nat) : Py.lower (hashes k) = hashes k.
Proof.
  induction k as [|k IH]; [reflexivity|].
  rewrite hashes_S. cbn [Py.lower]. now rewrite IH.
Qed.

Lemma hashes_no_space (k : nat) :
  string_forallb (fun c => negb (Py.isspace c)) (hashes k) = true.
Proof.
  induction k as [|k IH]; [reflexivity|].
  rewrite hashes_S. cbn [string_forallb]. now rewrite IH.
Qed.

Lemma hex_text_no_space (ds : list (Z * bool)) :
  string_forallb (fun c => negb (Py.isspace c)) (hex_text ds) = true.
Proof.
  induction ds as [|d ds IH]; [reflexivity|].
  rewrite hex_text_cons. cbn [string_forallb].
  now rewrite hex_char_not_space, IH.
Qed.

Lemma hex_text_all_hex (ds : list (Z * bool)) :
  string_forallb is_hex_digit (hex_text ds) = true.
Proof.
  induction ds as [|d ds IH]; [reflexivity|].
  rewrite hex_text_cons. cbn [string_forallb]. unfold is_hex_digit at 1.
  now rewrite hex_char_digit, IH.
Qed.

(** No colour name consists of hexadecimal digits only. *)
Lemma color_names_not_hex (k : string) (c : Z) :
  In (k, c) COLOR_MAP -> string_forallb is_hex_digit k = false.
Proof.
  unfold COLOR_MAP. simpl.
  intros H. repeat (destruct H as [[= <- <-]|H]; [reflexivity|]). destruct H.
Qed.

Lemma color_lookup_hex (ds : list (Z * bool)) :
  color_lookup COLOR_MAP (hex_text ds) = None.
Proof.
  destruct (color_lookup COLOR_MAP (hex_text ds)) as [c|] eqn:E; [|reflexivity].
  apply color_lookup_In, color_names_not_hex in E.
  now rewrite hex_text_all_hex in E.
Qed.

Lemma lstrip_hashes (k : nat) (d : Z * bool) (ds : list (Z * bool)) :
  Py.lstrip_hash (hashes k ++ hex_text (d :: ds)) = hex_text (d :: ds).
Proof.
  unfold Py.lstrip_hash.
  induction k as [|k IH].
  - change (hashes 0) with "". rewrite append_nil, hex_text_cons.
    cbn [Py.lstrip_by]. now rewrite hex_char_not_hash.
  - rewrite hashes_S, append_cons. cbn [Py.lstrip_by Ascii.eqb Bool.eqb].
    exact IH.
Qed.

(** A run of hexadecimal digits, behind any number of number signs, is
    read in base 16 and cut to its low 24 bits. *)
Lemma color_of_hex (k : nat) (d : Z * bool) (ds : list (Z * bool)) :
  color_of (hashes k ++ hex_text (d :: ds)) = hex_number (d :: ds) mod 2 ^ 24.
Proof.
  unfold color_of.
  rewrite strip_none
    by (rewrite string_forallb_app, hashes_no_space, hex_text_no_space; reflexivity).
  rewrite lower_app, hashes_lower, hex_text_lower.
  assert (color_lookup COLOR_MAP (hashes k ++ hex_text (map lower_digit (d :: ds)))
          = None) as ->.
  { destruct k as [|k]; [apply color_lookup_hex | reflexivity]. }
  cbn [map]. rewrite lstrip_hashes, int_hex_text, land_mask_mod.
  change (lower_digit d :: map lower_digit ds) with (map lower_digit (d :: ds)).
  now rewrite hex_number_lower.
Qed.

(** C9: [parse_color] returns on every input, with a result between 0 and
    0xFFFFFF; a colour name gives its table entry, a run of hexadecimal
    digits with or without leading number signs gives its value cut to 24
    bits, and any other non-empty text gives 0xD97706. *)
Theorem parse_color_total_bounded :
  (forall cfg value, exists c,
      parse_color cfg value = Some c
      /\ (forall k, parse_color_fuel (2 + k) cfg value = Some c)
      /\ 0 <= c <= 0xFFFFFF)
  /\ (forall cfg,
         Forall (fun entry => parse_color cfg (Some (fst entry)) = Some (snd entry))
           COLOR_MAP)
  /\ (forall cfg k d ds,
         parse_color cfg (Some (hashes k ++ hex_text (d :: ds)))
         = Some (hex_number (d :: ds) mod 2 ^ 24))
  /\ (forall cfg c r,
         let v := Py.lower (Py.strip (String c r)) in
         parse_color cfg (Some (String c r))
         = Some (match color_lookup COLOR_MAP v, Py.int 16 (Py.lstrip_hash v) with
                 | Some named, _ => named
                 | None, Some n => Z.land n 0xFFFFFF
                 | None, None => 0xD97706
                 end)).
Proof.
  split; [|split; [|split]].
  - intros cfg value. eexists. split; [apply parse_color_closed|]. split.
    + intros k. rewrite parse_color_fuel_enough. apply parse_color_closed.
    + destruct (Py.truthy value); [apply color_of_range|].
      destruct (Py.truthy _); [apply color_of_range | unfold orange; lia].
  - intros cfg. unfold COLOR_MAP. repeat constructor.
  - intros cfg k d ds. rewrite parse_color_closed.
    assert (Py.truthy (Some (hashes k ++ hex_text (d :: ds))) = true) as ->.
    { destruct k; reflexivity. }
    cbn [Py.get_default]. now rewrite color_of_hex.
  - intros cfg c r v. rewrite parse_color_closed. reflexivity.
Qed.

(** ** Ticket channel names *)

(** What the scanners see of a decimal digit. *)
Lemma digit_char_facts (d : Z) :
  0 <= d < 10 ->
  Py.int_space (Py.digit_char d) = false
  /\ Ascii.eqb (Py.digit_char d) "_" = false
  /\ Py.digit_in 10 (Py.digit_char d) = Some d
  /\ (forall r, Py.skip_sign (String (Py.digit_char d) r)
                = (false, String (Py.digit_char d) r))
  /\ is_decimal_digit (Py.digit_char d) = true
  /\ Ascii.eqb (Py.digit_char d) (ascii_of_nat 10) = false.
Proof.
  intros H.
  assert (d = 0 \/ d = 1 \/ d = 2 \/ d = 3 \/ d = 4 \/ d = 5 \/ d = 6 \/ d = 7
          \/ d = 8 \/ d = 9) as C by lia.
  repeat (destruct C as [->|C]; [repeat split; reflexivity|]).
  subst. repeat split; reflexivity.
Qed.














(** ** Access rules of a new ticket channel *)

Lemma opener_granted (g : guild) (opener : user) (support_role : option Z) :
  grants_access (ticket_overwrites g opener support_role) (MemberP (user_id opener)).
Proof.
  unfold grants_access, ticket_overwrites.
  destruct support_role as [r|];
    [rewrite lookup_insert_ne by discriminate|];
    (destruct (decide (user_id (guild_me g) = user_id opener)) as [E|N];
     [rewrite E, lookup_insert_eq; exists me_overwrite
     |rewrite lookup_insert_ne by congruence; rewrite lookup_insert_eq;
      exists opener_overwrite]); repeat split.
Qed.

Lemma service_granted (g : guild) (opener : user) (support_role : option Z) :
  grants_access (ticket_overwrites g opener support_role)
    (MemberP (user_id (guild_me g))).
Proof.
  unfold grants_access, ticket_overwrites.
  destruct support_role as [r|];
    [rewrite lookup_insert_ne by discriminate|];
    rewrite lookup_insert_eq; exists me_overwrite; repeat split.
Qed.

Lemma everyone_denied (g : guild) (opener : user) (support_role : option Z) :
  support_role <> Some (default_role g) ->
  denies_view (ticket_overwrites g opener support_role) (RoleP (default_role g)).
Proof.
  intros N. unfold denies_view, ticket_overwrites.
  exists everyone_overwrite. split; [|reflexivity].
  destruct support_role as [r|];
    [rewrite lookup_insert_ne by congruence|];
    rewrite !lookup_insert_ne by discriminate; apply lookup_insert_eq.
Qed.

(** When the support role is the default role itself, its entry replaces
    the denial. *)
Lemma everyone_granted (g : guild) (opener : user) :
  ticket_overwrites g opener (Some (default_role g)) !! RoleP (default_role g)
  = Some support_overwrite.
Proof. unfold ticket_overwrites. apply lookup_insert_eq. Qed.

(** *** Invariants of the recorded calls

    Rules for [preserves] and [returns]. *)

Section CallInvariant.

Variable P : call -> Prop.

Lemma preserves_ret {A} (a : A) : preserves P (ret a).
Proof. intros w s H. exact H. Qed.

Lemma preserves_raise {A} (e : exn) : preserves P (@raise A e).
Proof. intros w s H. exact H. Qed.

Lemma preserves_log (msg : string) : preserves P (log msg).
Proof. intros w s H. exact H. Qed.

Lemma preserves_utcnow : preserves P utcnow.
Proof. intros w s H. exact H. Qed.

Lemma preserves_perform (c : call) : P c -> preserves P (perform c).
Proof.
  intros Hc w s H. unfold perform.
  destruct (w_raises w c); cbn [snd calls record];
    (apply Forall_app; split; [exact H | constructor; [exact Hc | constructor]]).
Qed.

Lemma preserves_bind_with {A B} (Q : A -> Prop) (m : M A) (k : A -> M B) :
  preserves P m -> returns Q m -> (forall a, Q a -> preserves P (k a)) ->
  preserves P (bind m k).
Proof.
  intros Hm Hq Hk w s H. unfold bind.
  specialize (Hm w s H). specialize (Hq w s).
  destruct (m w s) as [[a|e] s']; cbn [snd] in *.
  - apply (Hk a); [eapply Hq; reflexivity | exact Hm].
  - exact Hm.
Qed.

Lemma preserves_bind {A B} (m : M A) (k : A -> M B) :
  preserves P m -> (forall a, preserves P (k a)) -> preserves P (bind m k).
Proof.
  intros Hm Hk. apply (preserves_bind_with (fun _ => True)); auto.
  intros w s a s' _. exact I.
Qed.

Lemma preserves_try {A} (body : M A) (handler : exn -> M A) :
  preserves P body -> (forall e, preserves P (handler e)) ->
  preserves P (try_except body handler).
Proof.
  intros Hb Hh w s H. unfold try_except.
  specialize (Hb w s H).
  destruct (body w s) as [[a|e] s']; cbn [snd] in *.
  - exact Hb.
  - apply (Hh e). exact Hb.
Qed.

Lemma preserves_int_of (text : string) : preserves P (int_of text).
Proof.
  unfold int_of. destruct (Py.int 10 text);
    [apply preserves_ret | apply preserves_raise].
Qed.

Lemma preserves_lookup_channel (g : guild) (id : option string) :
  preserves P (lookup_channel g id).
Proof.
  unfold lookup_channel. destruct (Py.truthy id); [|apply preserves_ret].
  apply preserves_bind; [apply preserves_int_of | intros; apply preserves_ret].
Qed.

Lemma preserves_lookup_role (g : guild) (id : option string) :
  preserves P (lookup_role g id).
Proof.
  unfold lookup_role. destruct (Py.truthy id); [|apply preserves_ret].
  apply preserves_bind; [apply preserves_int_of | intros; apply preserves_ret].
Qed.

End CallInvariant.

(** The role that [lookup_role] returns is the resolved support role. *)
Lemma lookup_role_returns (cfg : config) (g : guild) :
  returns (fun r => r = resolved_support_role cfg g)
    (lookup_role g (tickets_get cfg support_role_id)).
Proof.
  intros w s a s'. unfold lookup_role, resolved_support_role, int_of, bind, ret, raise.
  destruct (Py.truthy _); [|congruence].
  destruct (Py.int 10 _); [congruence | discriminate].
Qed.

Lemma open_calls_ok (cfg : config) (i : interaction) (opener : user)
    (reason : string) (g : guild) :
  interaction_guild i = Some g ->
  preserves (open_call_ok cfg i opener g) (create_ticket_channel cfg i opener reason).
Proof.
  intros Hg. unfold create_ticket_channel. rewrite Hg.
  apply preserves_bind; [apply preserves_lookup_channel | intros category].
  eapply preserves_bind_with;
    [apply preserves_lookup_role | apply lookup_role_returns | intros role ->].
  unfold create_text_channel.
  repeat first
    [ apply preserves_bind; [|intros ?]
    | apply preserves_try; [|intros []]
    | apply preserves_perform; cbn; auto
    | apply preserves_ret
    | apply preserves_raise
    | apply preserves_utcnow ].
Qed.

(** The calls of an Open request from a guild, one by one. *)
Lemma open_rule_set (cfg : config) (i : interaction) (opener : user)
    (reason : string) (w : world) (g : guild)
    (name : string) (category : option Z)
    (ow : gmap principal PermissionOverwrite) (why : string) :
  interaction_guild i = Some g ->
  In (CreateTextChannel name category ow why)
     (calls (snd (run (create_ticket_channel cfg i opener reason) w))) ->
  name = ticket_channel_name cfg opener (interaction_id i)
  /\ ow = ticket_overwrites g opener (resolved_support_role cfg g).
Proof.
  intros Hg Hin.
  pose proof (open_calls_ok cfg i opener reason g Hg w initial ltac:(constructor)) as F.
  rewrite List.Forall_forall in F. exact (F _ Hin).
Qed.

(** C2, as the code has it: the rule set of a new ticket channel grants the
    opener and the service principal view, send and read-history under
    every support-role configuration, and it denies the default role view
    unless the configured support role is the default role itself. *)
Theorem ticket_rule_set (cfg : config) (i : interaction) (opener : user)
    (reason : string) (w : world) (g : guild)
    (name : string) (category : option Z)
    (ow : gmap principal PermissionOverwrite) (why : string) :
  interaction_guild i = Some g ->
  In (CreateTextChannel name category ow why)
     (calls (snd (run (create_ticket_channel cfg i opener reason) w))) ->
  grants_access ow (MemberP (user_id opener))
  /\ grants_access ow (MemberP (user_id (guild_me g)))
  /\ (resolved_support_role cfg g <> Some (default_role g) ->
      denies_view ow (RoleP (default_role g))).
Proof.
  intros Hg Hin.
  destruct (open_rule_set _ _ _ _ _ _ _ _ _ _ Hg Hin) as [_ ->].
  split; [apply opener_granted|].
  split; [apply service_granted|].
  apply everyone_denied.
Qed.

Lemma ticket_rule_set_witness :
  let ow := ticket_overwrites den alice (Some 200) in
  grants_access ow (MemberP 42)
  /\ grants_access ow (MemberP 7)
  /\ denies_view ow (RoleP 100).
Proof.
  intros ow.
  destruct (ticket_rule_set (sample_tickets "200" "ticket") (from_lobby alice) alice
              "billing issue" (quiet []) den
              "ticket-alice-6789" (Some 301) ow "Ticket opened by alice (42)"
              eq_refl (or_introl eq_refl)) as (A & B & C).
  split; [exact A|]. split; [exact B|].
  apply C. vm_compute. discriminate.
Defined.

(** C2 fails when the configured support role is the default role: its
    entry, which grants view, takes the place of the denial. *)
Lemma default_role_as_support_role :
  ~ open_is_private (sample_tickets "100" "ticket") (from_lobby alice) alice
      "billing issue" (quiet []).
Proof.
  intros H.
  destruct (H den "ticket-alice-6789" (Some 301)
              (ticket_overwrites den alice (Some (default_role den)))
              "Ticket opened by alice (42)" eq_refl (or_introl eq_refl))
    as [(o & Ho & Hv) _].
  rewrite everyone_granted in Ho. injection Ho as <-. discriminate Hv.
Qed.

(** ** Running the commands *)

(** A single call leaves itself as the only record. *)
Lemma run_send_message (w : world) (content : string) (ephemeral : bool) :
  snd (run (send_message content ephemeral) w)
  = {| calls := [Respond content ephemeral]; logs := [] |}.
Proof.
  unfold run, send_message, perform.
  destruct (w_raises w _); reflexivity.
Qed.

Lemma prefix_empty (s : string) : Py.startswith s "" = true.
Proof. destruct s; reflexivity. Qed.

(** ** The guard of the ticket commands *)

Lemma not_ticket_channel_other (cfg : config) (ch : option channel) :
  (forall c, ch = Some c -> Py.startswith (channel_name c) (guard_prefix cfg) = false) ->
  not_ticket_channel cfg ch = true.
Proof.
  intros H. destruct ch as [c|]; [|reflexivity].
  unfold not_ticket_channel. rewrite (H c eq_refl). apply orb_true_r.
Qed.

(** C5: Claim, AddMember, RemoveMember and Close, invoked in a channel
    whose name does not start with the configured prefix, answer with the
    ephemeral rejection notice and do nothing else: the notice is the only
    recorded call (no permission change, no file written, no message
    posted, no deletion) and nothing is logged. *)
Theorem guard_rejects_other_channels (cfg : config) (i : interaction)
    (target : user) (reason : option string) (w : world) :
  (forall ch, interaction_channel i = Some ch ->
              Py.startswith (channel_name ch) (guard_prefix cfg) = false) ->
  rejected_without_effect (ticket_claim cfg i) w
  /\ rejected_without_effect (ticket_add cfg i target) w
  /\ rejected_without_effect (ticket_remove cfg i target) w
  /\ rejected_without_effect (ticket_close cfg i reason) w.
Proof.
  intros H. pose proof (not_ticket_channel_other cfg _ H) as G.
  unfold rejected_without_effect, ticket_claim, ticket_add, ticket_remove, ticket_close.
  destruct (interaction_channel i) as [ch|]; rewrite ?G;
    repeat split; apply run_send_message.
Qed.

Lemma guard_rejects_other_channels_witness :
  rejected_without_effect (ticket_claim default_config (from_lobby staff1)) (quiet [])
  /\ rejected_without_effect (ticket_add default_config (from_lobby staff1) alice)
       (quiet [])
  /\ rejected_without_effect (ticket_remove default_config (from_lobby staff1) alice)
       (quiet [])
  /\ rejected_without_effect
       (ticket_close default_config (from_lobby staff1) (Some "resolved")) (quiet []).
Proof.
  apply (guard_rejects_other_channels default_config (from_lobby staff1) alice
           (Some "resolved") (quiet [])).
  intros ch [= <-]. reflexivity.
Defined.



(** *** Stepping through a command

    [walk] unfolds the monad and splits on every answer of the world and
    on every configuration test that the command meets, leaving one goal
    for each path, with the calls of that path written out. *)

Ltac step :=
  cbv beta iota delta
    [run bind ret raise try_except log utcnow send_message create_text_channel
     channel_history lookup_channel lookup_role int_of perform record calls logs
     initial fst snd app].

Ltac branch :=
  match goal with
  | |- context [match w_raises ?w ?c with _ => _ end] =>
      let E := fresh "E" in destruct (w_raises w c) eqn:E
  | |- context [match Py.int ?b ?t with _ => _ end] =>
      let E := fresh "E" in destruct (Py.int b t) eqn:E
  | |- context [if Py.truthy ?v then _ else _] =>
      let E := fresh "E" in destruct (Py.truthy v) eqn:E
  | |- context [match ?e with InteractionResponded => _ | _ => _ end] =>
      destruct e
  end.

Ltac walk := step; repeat (branch; step).

(** ** Failures of Open *)

Lemma open_outside_guild (cfg : config) (i : interaction) (opener : user)
    (reason : string) (w : world) :
  interaction_guild i = None ->
  run (create_ticket_channel cfg i opener reason) w
  = run (send_message guild_notice true) w
  /\ snd (run (create_ticket_channel cfg i opener reason) w)
     = {| calls := [Respond guild_notice true]; logs := [] |}.
Proof.
  intros Hg. unfold create_ticket_channel. rewrite Hg.
  split; [reflexivity | apply run_send_message].
Qed.

Lemma open_failure_propagates (cfg : config) (i : interaction) (opener : user)
    (reason : string) (w : world)
    (name : string) (category : option Z)
    (ow : gmap principal PermissionOverwrite) (why : string) (e : exn) :
  In (CreateTextChannel name category ow why)
     (calls (snd (run (create_ticket_channel cfg i opener reason) w))) ->
  w_raises w (CreateTextChannel name category ow why) = Some e ->
  run (create_ticket_channel cfg i opener reason) w
  = (Raise e, {| calls := [CreateTextChannel name category ow why]; logs := [] |}).
Proof.
  unfold create_ticket_channel.
  destruct (interaction_guild i) as [g|]; walk;
    intros Hin Hw; cbn [In] in Hin;
    repeat (destruct Hin as [Hin|Hin];
            [try discriminate Hin; rewrite <- Hin in Hw |- *; congruence|]);
    contradiction.
Qed.

(** C7, as the code has it: outside a guild, Open answers with the
    ephemeral notice and creates nothing; when the creation of the channel
    raises, the exception leaves Open, the creation is attempted once, and
    no other call is made, so no answer is sent to the invoking actor. *)
Theorem open_failures (cfg : config) (i : interaction) (opener : user)
    (reason : string) (w : world) :
  (interaction_guild i = None ->
   run (create_ticket_channel cfg i opener reason) w
   = run (send_message guild_notice true) w
   /\ snd (run (create_ticket_channel cfg i opener reason) w)
      = {| calls := [Respond guild_notice true]; logs := [] |})
  /\ (forall name category ow why e,
         In (CreateTextChannel name category ow why)
            (calls (snd (run (create_ticket_channel cfg i opener reason) w))) ->
         w_raises w (CreateTextChannel name category ow why) = Some e ->
         run (create_ticket_channel cfg i opener reason) w
         = (Raise e,
            {| calls := [CreateTextChannel name category ow why]; logs := [] |})).
Proof.
  split; [apply open_outside_guild | apply open_failure_propagates].
Qed.

Lemma open_failures_witness :
  snd (run (create_ticket_channel default_config (from_dm alice) alice "billing issue")
         (quiet []))
  = {| calls := [Respond guild_notice true]; logs := [] |}
  /\ fst (run (create_ticket_channel default_config (from_lobby alice) alice
                 "billing issue") no_new_channels)
     = Raise Forbidden.
Proof.
  split.
  - apply (open_failures default_config (from_dm alice) alice "billing issue"
             (quiet [])).
    reflexivity.
  - destruct (open_failures default_config (from_lobby alice) alice "billing issue"
                no_new_channels) as [_ H].
    rewrite (H "ticket-alice-6789" None (ticket_overwrites den alice None)
               "Ticket opened by alice (42)" Forbidden
               (or_introl eq_refl) eq_refl).
    reflexivity.
Defined.

(** C7 fails where it says that a failed creation is reported to the
    invoking actor: the only call of such a run is the creation itself. *)
Lemma creation_failure_not_reported :
  ~ open_failure_reported default_config (from_lobby alice) alice "billing issue"
      no_new_channels.
Proof.
  unfold open_failure_reported. intros H.
  destruct H as (content & ephemeral & Hin).
  - exists "ticket-alice-6789", None, (ticket_overwrites den alice None),
      "Ticket opened by alice (42)", Forbidden.
    split; [left; reflexivity | reflexivity].
  - cbn in Hin. destruct Hin as [Hin|[]]. discriminate Hin.
Qed.

(** ** Closing a ticket *)

Ltac branch_close :=
  first
    [ branch
    | match goal with
      | |- context [match get_channel ?g ?z with _ => _ end] =>
          destruct (get_channel g z) as [[? []]|]
      end ].

Ltac walk_close := step; repeat (branch_close; step).



(** The recorder makes recorder calls only, logs nothing, and a written
    transcript is among its calls when it returns. *)
Lemma recorder_calls (ch : channel) (w : world) :
  let r := run (generate_text_transcript ch) w in
  forallb is_recorder_call (calls (snd r)) = true
  /\ logs (snd r) = []
  /\ (forall path, fst r = Ret path -> existsb is_write (calls (snd r)) = true).
Proof.
  unfold generate_text_transcript. walk;
    (split; [reflexivity|]; split; [reflexivity|]);
    intros path H; try discriminate H; reflexivity.
Qed.

Lemma close_after_recorder_failure (cfg : config) (i : interaction)
    (reason : option string) (w : world) (ch : channel) (e : exn) (st : state) :
  interaction_channel i = Some ch ->
  not_ticket_channel cfg (Some ch) = false ->
  w_raises w (Respond closing_notice true) = None ->
  run (generate_text_transcript ch) w = (Raise e, st) ->
  run (ticket_close cfg i reason) w
  = (Raise e, {| calls := Respond closing_notice true :: calls st; logs := [] |}).
Proof.
  intros Hc Hg Hr. unfold ticket_close. rewrite Hc, Hg.
  unfold generate_text_transcript. step. rewrite Hr.
  walk_close; intros H; try discriminate H; injection H as <- <-; reflexivity.
Qed.

(** C4, as the code has it: when the recorder raises, the exception leaves
    Close; the calls of the run are the closing notice and the recorder's
    own calls, so nothing is delivered, the channel is not deleted, and
    the actor receives no notice of the failure. *)
Theorem close_aborts_on_recorder_failure (cfg : config) (i : interaction)
    (reason : option string) (w : world) (ch : channel) (e : exn) (st : state) :
  interaction_channel i = Some ch ->
  not_ticket_channel cfg (Some ch) = false ->
  w_raises w (Respond closing_notice true) = None ->
  run (generate_text_transcript ch) w = (Raise e, st) ->
  run (ticket_close cfg i reason) w
  = (Raise e, {| calls := Respond closing_notice true :: calls st; logs := [] |})
  /\ forallb is_recorder_call (calls st) = true.
Proof.
  intros Hc Hg Hr Hf. split.
  - apply (close_after_recorder_failure cfg i reason w ch e st); assumption.
  - pose proof (recorder_calls ch w) as (R & _). cbv zeta in R.
    now rewrite Hf in R.
Qed.

Lemma close_aborts_on_recorder_failure_witness :
  run (ticket_close default_config (from_ticket staff1) (Some "resolved")) no_history
  = (Raise HTTPException,
     {| calls := [Respond closing_notice true; MakeDirs "transcripts"; History 555];
        logs := [] |}).
Proof.
  destruct (close_aborts_on_recorder_failure default_config (from_ticket staff1)
              (Some "resolved") no_history ticket_channel HTTPException
              {| calls := [MakeDirs "transcripts"; History 555]; logs := [] |}
              eq_refl eq_refl eq_refl eq_refl) as [A _].
  exact A.
Defined.

(** C4 fails where it says that the failure is surfaced to the actor: the
    closing notice, sent before the recorder ran, is the only answer. *)
Lemma recorder_failure_not_reported :
  ~ close_failure_reported default_config (from_ticket staff1) (Some "resolved")
      no_history.
Proof.
  intros H.
  destruct (H ticket_channel eq_refl eq_refl) as (_ & content & ephemeral & Hin & Hn).
  - exists HTTPException,
      {| calls := [MakeDirs "transcripts"; History 555]; logs := [] |}.
    reflexivity.
  - cbn in Hin. destruct Hin as [Hin|[Hin|[Hin|[]]]]; try discriminate Hin.
    injection Hin as <- _. now apply Hn.
Qed.




(** ** Transcripts *)

(** The loop over the history appends the lines of each message in turn. *)
Lemma append_loop {A B} (f : A -> list B) (l : list A) (acc : list B) :
  fold_left (fun lines x => (lines ++ f x)%list) l acc = (acc ++ flat_map f l)%list.
Proof.
  revert acc. induction l as [|x l IH]; intros acc; cbn [fold_left flat_map].
  - now rewrite app_nil_r.
  - now rewrite IH, app_assoc.
Qed.

Lemma transcript_lines_concat (ch : channel) (history : list message) :
  transcript_lines ch history
  = (transcript_header ch ++ flat_map message_lines history)%list.
Proof. apply append_loop. Qed.






(** *** Time stamp and author of every line *)

Lemma startswith_app (p r : string) : Py.startswith (p ++ r) p = true.
Proof.
  induction p as [|c p IH]; [reflexivity|].
  rewrite append_cons. cbn [Py.startswith]. now rewrite Ascii.eqb_refl, IH.
Qed.

Lemma append_assoc (a b c : string) : (a ++ b) ++ c = a ++ b ++ c.
Proof.
  induction a as [|x a IH]; [reflexivity|].
  rewrite !append_cons. now rewrite IH.
Qed.




(** *** Order of the lines *)








(** *** Lines of the written text *)

Lemma count_lines_app (a b : string) :
  count_lines (a ++ b) = (count_lines a + count_lines b)%nat.
Proof.
  induction a as [|c a IH]; [reflexivity|].
  rewrite append_cons. cbn [count_lines]. rewrite IH. lia.
Qed.

Lemma count_lines_nl : count_lines nl = 1%nat.
Proof. reflexivity. Qed.

Lemma count_lines_file (lines : list string) :
  count_lines (file_content lines) = list_sum (map count_lines lines).
Proof.
  unfold file_content. induction lines as [|x l IH]; [reflexivity|].
  cbn [fold_right map list_sum]. now rewrite count_lines_app, IH.
Qed.

Lemma list_sum_cons (x : nat) (l : list nat) : list_sum (x :: l) = (x + list_sum l)%nat.
Proof. reflexivity. Qed.

Lemma embed_lines_count (ts author : string) (idx : Z) (embeds : list message_embed) :
  (2 * List.length embeds
   <= list_sum (map count_lines (embed_lines ts author idx embeds)))%nat.
Proof.
  revert idx. induction embeds as [|e rest IH]; intros idx; [reflexivity|].
  cbn [embed_lines map List.length]. specialize (IH (idx + 1)).
  rewrite list_sum_cons, !count_lines_app, count_lines_nl. lia.
Qed.

(** The tests on the lists of embeds and attachments leave the two loops
    as they are. *)
Lemma message_lines_loops (m : message) :
  let author :=
    user_tag (msg_author m) ++ " (" ++ Py.str_int (user_id (msg_author m)) ++ ")" in
  let ts := strftime_utc (msg_created_at m) in
  let text :=
    match msg_content m with
    | EmptyString => []
    | _ => ["[" ++ ts ++ "] " ++ author ++ ": " ++ msg_content m ++ nl]
    end in
  let attached a := "[" ++ ts ++ "] " ++ author ++ " attached: " ++ a_url a ++ nl in
  message_lines m
  = (embed_lines ts author 1 (msg_embeds m) ++ text
       ++ map attached (msg_attachments m))%list.
Proof.
  unfold message_lines.
  destruct (msg_embeds m), (msg_attachments m); reflexivity.
Qed.

Lemma attachment_lines_count (f : attachment -> string) (l : list attachment) :
  (forall a, 1 <= count_lines (f a))%nat ->
  (List.length l <= list_sum (map count_lines (map f l)))%nat.
Proof.
  intros Hf. induction l as [|a l IH]; [reflexivity|].
  cbn [map List.length]. rewrite list_sum_cons. specialize (Hf a). lia.
Qed.

(** A message takes at least two lines of the text for each embed, one
    for its text and one for each attachment. *)
Lemma message_lines_count (m : message) :
  (physical_units m <= list_sum (map count_lines (message_lines m)))%nat.
Proof.
  rewrite message_lines_loops. cbv zeta. unfold physical_units.
  rewrite !map_app, !list_sum_app.
  match goal with
  | |- context [embed_lines ?ts ?a ?k ?es] =>
      pose proof (embed_lines_count ts a k es) as HE
  end.
  match goal with
  | |- context [map count_lines (map ?f ?l)] =>
      pose proof (attachment_lines_count f l
                    ltac:(intros x; cbv beta;
                          rewrite !count_lines_app, count_lines_nl; lia))
        as HA
  end.
  destruct (msg_content m) as [|c r]; cbn [map];
    rewrite ?list_sum_cons, ?count_lines_app, ?count_lines_nl;
    change (list_sum []) with 0%nat; lia.
Qed.

Lemma transcript_text_count (ch : channel) (history : list message) :
  (3 + list_sum (map physical_units history)
   <= count_lines (file_content (transcript_lines ch history)))%nat.
Proof.
  rewrite transcript_lines_concat, count_lines_file, map_app, list_sum_app.
  assert (3 <= list_sum (map count_lines (transcript_header ch)))%nat as H3.
  { unfold transcript_header. cbn [map].
    rewrite !list_sum_cons, !count_lines_app, count_lines_nl. lia. }
  assert (list_sum (map physical_units history)
          <= list_sum (map count_lines (flat_map message_lines history)))%nat as HB.
  { induction history as [|m h IH]; [reflexivity|].
    cbn [map flat_map]. rewrite list_sum_cons, map_app, list_sum_app.
    pose proof (message_lines_count m). lia. }
  lia.
Qed.




Lemma physical_units_ge (m : message) : (content_units m <= physical_units m)%nat.
Proof. unfold content_units, physical_units. lia. Qed.

(** More generally, the count of the claim is too small for every history
    in which some message carries an embed. *)
Lemma embeds_break_line_count (ch : channel) (history : list message) :
  Exists (fun m => msg_embeds m <> []) history -> ~ line_count_claim ch history.
Proof.
  intros E H. unfold line_count_claim in H.
  pose proof (transcript_text_count ch history) as C. rewrite H in C.
  assert (total_units history < list_sum (map physical_units history))%nat as L.
  { clear H C. unfold total_units.
    induction E as [m h Hm|m h E IH]; cbn [map]; rewrite !list_sum_cons.
    - assert (content_units m < physical_units m)%nat.
      { unfold content_units, physical_units.
        destruct (msg_embeds m); [contradiction | cbn [List.length]; lia]. }
      assert (list_sum (map content_units h) <= list_sum (map physical_units h))%nat.
      { clear. induction h as [|x h IH]; [reflexivity|].
        cbn [map]. rewrite !list_sum_cons. pose proof (physical_units_ge x). lia. }
      lia.
    - pose proof (physical_units_ge m). lia. }
  lia.
Qed.

(** ** The scenario of the specification

    Alice opens a ticket for a billing issue; later a staff member closes
    it with the reason "resolved". *)

Example scenario_open :
  let r := run (create_ticket_channel default_config (from_lobby alice) alice
                  "billing issue") (quiet []) in
  fst r = Ret tt
  /\ logs (snd r) = []
  /\ match calls (snd r) with
     | [CreateTextChannel name None ow why; Send c1 None (Some intro) None;
        Send c2 (Some mention) None None; Respond answer true] =>
         name = "ticket-alice-6789"
         /\ ow = ticket_overwrites den alice None
         /\ why = "Ticket opened by alice (42)"
         /\ c1 = 555 /\ c2 = 555
         /\ embed_description intro
            = "**Ticket opened by <@42>**" ++ nl ++ nl ++ "**Reason:**" ++ nl
                ++ "billing issue"
         /\ embed_color intro = 0xD97706
         /\ mention = "<@42>"
         /\ answer = "✅ Ticket created: <#555>"
     | _ => False
     end.
Proof. repeat split. Qed.

Example scenario_close :
  let r := run (ticket_close (sample_tickets "200" "ticket") (from_ticket staff1)
                  (Some "resolved")) (quiet [embed_only; text_and_files]) in
  fst r = Ret tt
  /\ logs (snd r) = []
  /\ match calls (snd r) with
     | [Respond notice true; MakeDirs dir; History c0; WriteLines path lines;
        Send c1 None (Some e1) (Some f1); Send c2 None (Some e2) (Some f2);
        DeleteChannel c3 why] =>
         notice = closing_notice
         /\ dir = "transcripts"
         /\ path = "transcripts/ticket-alice-6789-555.txt"
         /\ f1 = path /\ f2 = path
         /\ c0 = 555 /\ c1 = 300 /\ c2 = 555 /\ c3 = 555
         /\ e1 = e2
         /\ embed_color e1 = 0x10B981
         /\ why = "resolved"
         /\ List.length lines = 7%nat
         /\ count_lines (file_content lines) = 8%nat
     | _ => False
     end.
Proof. repeat split. Qed.

(** * Further properties *)

(** ** [parse_color]: case, white space, prefixes and signs *)

Lemma lower_char_idem (c : ascii) : Py.lower_char (Py.lower_char c) = Py.lower_char c.
Proof. destruct c as [[] [] [] [] [] [] [] []]; reflexivity. Qed.

Lemma isspace_lower_char (c : ascii) : Py.isspace (Py.lower_char c) = Py.isspace c.
Proof. destruct c as [[] [] [] [] [] [] [] []]; reflexivity. Qed.

Lemma lower_idem (s : string) : Py.lower (Py.lower s) = Py.lower s.
Proof.
  induction s as [|c s IH]; [reflexivity|].
  cbn [Py.lower]. now rewrite lower_char_idem, IH.
Qed.

Lemma lower_empty (s : string) : Py.lower s = "" -> s = "".
Proof. destruct s; [reflexivity | discriminate]. Qed.

Lemma lstrip_lower (s : string) :
  Py.lstrip_by Py.isspace (Py.lower s) = Py.lower (Py.lstrip_by Py.isspace s).
Proof.
  induction s as [|c s IH]; [reflexivity|].
  cbn [Py.lower Py.lstrip_by]. rewrite isspace_lower_char.
  destruct (Py.isspace c); [exact IH | reflexivity].
Qed.

Lemma rstrip_lower (s : string) :
  Py.rstrip_by Py.isspace (Py.lower s) = Py.lower (Py.rstrip_by Py.isspace s).
Proof.
  induction s as [|c s IH]; [reflexivity|].
  cbn [Py.lower Py.rstrip_by]. rewrite IH, isspace_lower_char.
  destruct (Py.rstrip_by Py.isspace s) as [|d r]; cbn [Py.lower];
    [destruct (Py.isspace c)|]; reflexivity.
Qed.

Lemma strip_lower (s : string) : Py.strip (Py.lower s) = Py.lower (Py.strip s).
Proof. unfold Py.strip. now rewrite lstrip_lower, rstrip_lower. Qed.

(** What is left of a text after [lstrip] does not begin with a stripped
    character, and [rstrip] keeps the first character of what it keeps. *)
Lemma lstrip_by_head (p : ascii -> bool) (s : string) :
  Py.lstrip_by p s = "" \/ exists c r, Py.lstrip_by p s = String c r /\ p c = false.
Proof.
  induction s as [|c s IH]; [now left|].
  cbn [Py.lstrip_by]. destruct (p c) eqn:E; [exact IH | right; eauto].
Qed.

Lemma rstrip_by_head (p : ascii -> bool) (c : ascii) (r : string) :
  Py.rstrip_by p (String c r) = "" \/ exists r', Py.rstrip_by p (String c r) = String c r'.
Proof.
  cbn [Py.rstrip_by]. destruct (Py.rstrip_by p r); [destruct (p c)|]; eauto.
Qed.

Lemma rstrip_by_idem (p : ascii -> bool) (s : string) :
  Py.rstrip_by p (Py.rstrip_by p s) = Py.rstrip_by p s.
Proof.
  induction s as [|c s IH]; [reflexivity|].
  cbn [Py.rstrip_by]. destruct (Py.rstrip_by p s) as [|d r] eqn:E.
  - destruct (p c) eqn:Ec; [reflexivity|]. cbn [Py.rstrip_by]. now rewrite Ec.
  - cbn [Py.rstrip_by] in IH |- *. now rewrite IH.
Qed.

Lemma strip_idem (s : string) : Py.strip (Py.strip s) = Py.strip s.
Proof.
  unfold Py.strip.
  destruct (lstrip_by_head Py.isspace s) as [->|(c & r & -> & Hc)]; [reflexivity|].
  destruct (rstrip_by_head Py.isspace c r) as [->|(r' & E)]; [reflexivity|].
  rewrite E. cbn [Py.lstrip_by]. rewrite Hc, <- E. apply rstrip_by_idem.
Qed.

Lemma color_of_lower (s : string) : color_of (Py.lower s) = color_of s.
Proof. unfold color_of. now rewrite strip_lower, lower_idem. Qed.

Lemma color_of_strip (s : string) : color_of (Py.strip s) = color_of s.
Proof. unfold color_of. now rewrite strip_idem. Qed.

Lemma truthy_nonempty (s : string) : s <> "" -> Py.truthy (Some s) = true.
Proof. destruct s; [contradiction | reflexivity]. Qed.

Lemma parse_color_value (cfg : config) (s : string) :
  s <> "" -> parse_color cfg (Some s) = Some (color_of s).
Proof.
  intros H. rewrite parse_color_closed, truthy_nonempty by exact H. reflexivity.
Qed.

(** X1: the colour of a non-empty text depends neither on the case of its
    letters nor on white space around it. *)
Theorem parse_color_case_and_space (cfg : config) (s : string) :
  Py.strip s <> "" ->
  parse_color cfg (Some (Py.lower s)) = parse_color cfg (Some s)
  /\ parse_color cfg (Some (Py.strip s)) = parse_color cfg (Some s).
Proof.
  intros H.
  assert (s <> "") as Hs by (intros ->; now apply H).
  assert (Py.lower s <> "") as Hl by (intros E; apply Hs, lower_empty, E).
  rewrite !parse_color_value by assumption.
  now rewrite color_of_lower, color_of_strip.
Qed.

Lemma parse_color_case_and_space_witness :
  parse_color default_config (Some "  gold ") = Some 0xF59E0B
  /\ parse_color default_config (Some "#3b82F6") = Some 0x3B82F6.
Proof.
  destruct (parse_color_case_and_space default_config "  gold ") as [_ A];
    [discriminate|].
  destruct (parse_color_case_and_space default_config "#3b82F6") as [B _];
    [discriminate|].
  split; [rewrite <- A | rewrite <- B]; reflexivity.
Defined.

(** X2: a text of white space only is not an empty value: it gives the
    fallback 0xD97706, whatever the brand colour. *)
Theorem parse_color_blank (cfg : config) (s : string) :
  s <> "" -> Py.strip s = "" -> parse_color cfg (Some s) = Some 0xD97706.
Proof.
  intros Hs Hb. rewrite parse_color_value by exact Hs.
  unfold color_of. rewrite Hb. reflexivity.
Qed.

Lemma parse_color_blank_witness :
  parse_color blue_brand (Some "   ") = Some 0xD97706.
Proof. apply parse_color_blank; [discriminate | reflexivity]. Defined.

(** *** The scanner of [int(text, 16)] on prefixed and signed digits *)

Lemma lstrip_hashes_head (k : nat) (c : ascii) (r : string) :
  Ascii.eqb c "#" = false ->
  Py.lstrip_hash (hashes k ++ String c r) = String c r.
Proof.
  intros Hc. unfold Py.lstrip_hash. induction k as [|k IH].
  - change (hashes 0) with "". rewrite append_nil. cbn [Py.lstrip_by]. now rewrite Hc.
  - rewrite hashes_S, append_cons. cbn [Py.lstrip_by Ascii.eqb Bool.eqb]. exact IH.
Qed.

(** The digits behind the prefix [0x]. *)
Lemma int_hex_prefixed (d : Z * bool) (ds : list (Z * bool)) :
  Py.int 16 ("0x" ++ hex_text (d :: ds)) = Some (hex_number (d :: ds)).
Proof.
  unfold Py.int. rewrite !append_cons, append_nil. cbn [Py.lstrip_by].
  change (Py.int_space "0") with false. cbv iota.
  change (Py.skip_sign (String "0" (String "x" (hex_text (d :: ds)))))
    with (false, String "0" (String "x" (hex_text (d :: ds)))).
  cbv iota.
  assert (Py.skip_prefix 16 (String "0" (String "x" (hex_text (d :: ds))))
          = hex_text (d :: ds)) as ->.
  { rewrite hex_text_cons. pose proof (hex_char_not_underscore d) as U.
    destruct (hex_char d) as [[] [] [] [] [] [] [] []];
      try discriminate U; reflexivity. }
  rewrite scan_hex_text, hex_text_cons.
  pose proof (hex_char_not_underscore d) as U.
  destruct (hex_char d) as [[] [] [] [] [] [] [] []]; try discriminate U; reflexivity.
Qed.

(** The digits behind a minus sign. *)
Lemma int_hex_negative (d : Z * bool) (ds : list (Z * bool)) :
  Py.int 16 ("-" ++ hex_text (d :: ds)) = Some (- hex_number (d :: ds)).
Proof.
  unfold Py.int. rewrite append_cons, append_nil. cbn [Py.lstrip_by].
  change (Py.int_space "-") with false. cbv iota.
  change (Py.skip_sign (String "-" (hex_text (d :: ds))))
    with (true, hex_text (d :: ds)).
  cbv iota.
  rewrite hex_text_no_prefix, scan_hex_text, hex_text_cons.
  pose proof (hex_char_not_underscore d) as U.
  destruct (hex_char d) as [[] [] [] [] [] [] [] []]; try discriminate U; reflexivity.
Qed.

Lemma color_of_marked (k : nat) (mark : string) (d : Z * bool) (ds : list (Z * bool))
    (n : Z) :
  mark = "0x" \/ mark = "0X" \/ mark = "-" ->
  Py.int 16 (Py.lower mark ++ hex_text (map lower_digit (d :: ds))) = Some n ->
  color_of (hashes k ++ mark ++ hex_text (d :: ds)) = n mod 2 ^ 24.
Proof.
  intros Hm Hn. unfold color_of.
  assert (string_forallb (fun c => negb (Py.isspace c)) mark = true) as Sm.
  { destruct Hm as [->|[->| ->]]; reflexivity. }
  rewrite strip_none
    by (rewrite !string_forallb_app, hashes_no_space, Sm, hex_text_no_space;
        reflexivity).
  rewrite !lower_app, hashes_lower, hex_text_lower.
  assert (exists c r, Py.lower mark = String c r /\ Ascii.eqb c "#" = false
                      /\ color_lookup COLOR_MAP (String c (r ++ hex_text (map lower_digit (d :: ds)))) = None)
    as (c & r & Em & Hc & Hl).
  { destruct Hm as [->|[->| ->]]; eexists _, _; repeat split. }
  rewrite Em in *. rewrite append_cons.
  assert (color_lookup COLOR_MAP
            (hashes k ++ String c (r ++ hex_text (map lower_digit (d :: ds)))) = None)
    as ->.
  { destruct k as [|k]; [exact Hl | reflexivity]. }
  rewrite lstrip_hashes_head by exact Hc.
  rewrite <- append_cons, Hn. apply land_mask_mod.
Qed.

(** X3: behind any number of number signs, the prefix 0x or 0X before the
    digits changes nothing, and a minus sign gives the two's complement
    of the number in 24 bits. *)
Theorem parse_color_prefix_and_sign (cfg : config) (k : nat) (d : Z * bool)
    (ds : list (Z * bool)) :
  parse_color cfg (Some (hashes k ++ "0x" ++ hex_text (d :: ds)))
  = Some (hex_number (d :: ds) mod 2 ^ 24)
  /\ parse_color cfg (Some (hashes k ++ "0X" ++ hex_text (d :: ds)))
     = Some (hex_number (d :: ds) mod 2 ^ 24)
  /\ parse_color cfg (Some (hashes k ++ "-" ++ hex_text (d :: ds)))
     = Some ((2 ^ 24 - hex_number (d :: ds) mod 2 ^ 24) mod 2 ^ 24).
Proof.
  assert (forall mark, mark = "0x" \/ mark = "0X" \/ mark = "-" ->
                       hashes k ++ mark ++ hex_text (d :: ds) <> "") as Hne.
  { intros mark Hm E. destruct k; [|discriminate E].
    destruct Hm as [->|[->| ->]]; discriminate E. }
  rewrite !parse_color_value by (apply Hne; auto).
  rewrite (color_of_marked k "0x" d ds (hex_number (d :: ds)));
    [|auto|cbn [map]; rewrite <- (hex_number_lower (d :: ds)); apply int_hex_prefixed].
  rewrite (color_of_marked k "0X" d ds (hex_number (d :: ds)));
    [|auto|cbn [map]; rewrite <- (hex_number_lower (d :: ds)); apply int_hex_prefixed].
  rewrite (color_of_marked k "-" d ds (- hex_number (d :: ds)));
    [|auto|cbn [map]; rewrite <- (hex_number_lower (d :: ds)); apply int_hex_negative].
  repeat split. f_equal.
  rewrite Zminus_mod_idemp_r.
  replace (2 ^ 24 - hex_number (d :: ds))
    with (- hex_number (d :: ds) + 1 * 2 ^ 24) by ring.
  symmetry. apply Z.mod_add. discriminate.
Qed.

(** ** [make_announcement_embed] *)

(** X4: the colour of an announcement embed is the colour argument when
    one is given, else the brand colour, else 0xD97706; it always fits in
    24 bits. *)
Theorem embed_color_choice (cfg : config) (now : datetime) (text : string)
    (title color url thumbnail image footer author_name author_icon : option string) :
  let e := make_announcement_embed cfg now text title color url thumbnail image
             footer author_name author_icon in
  let brand := brand_get cfg brand_color in
  embed_color e
  = (if Py.truthy color then color_of (Py.get_default color "")
     else if Py.truthy brand then color_of (Py.get_default brand "")
          else 0xD97706)
  /\ 0 <= embed_color e <= 0xFFFFFF.
Proof.
  intros e brand. subst e. unfold make_announcement_embed. cbn [embed_color].
  rewrite parse_color_closed. unfold or_else. fold brand.
  destruct (Py.truthy color) eqn:C; [rewrite C|];
    (split; [|try apply color_of_range]); try reflexivity;
    destruct (Py.truthy brand) eqn:B; try reflexivity;
    try apply color_of_range; unfold orange; lia.
Qed.

(** ** Channel names and the guard of the ticket commands *)

Lemma lower_length (s : string) : String.length (Py.lower s) = String.length s.
Proof. induction s as [|c s IH]; [reflexivity|]. cbn. now rewrite IH. Qed.

Lemma append_length (a b : string) :
  String.length (a ++ b) = (String.length a + String.length b)%nat.
Proof.
  induction a as [|c a IH]; [reflexivity|].
  rewrite append_cons. cbn [String.length]. now rewrite IH.
Qed.

(** A prefix as long as the first part of a text is that first part. *)
Lemma startswith_same_length (a r p : string) :
  String.length a = String.length p ->
  Py.startswith (a ++ r) p = true -> a = p.
Proof.
  revert p. induction a as [|c a IH]; intros [|d p] L H; try discriminate L.
  - reflexivity.
  - rewrite append_cons in H. cbn [Py.startswith] in H.
    apply andb_prop in H as [Hc H]. apply Ascii.eqb_eq in Hc. subst d.
    f_equal. apply IH; [now injection L | exact H].
Qed.

(** The prefix that names are built from is the prefix that the guard
    tests, in lower case, except when the configured prefix is empty. *)
Lemma name_prefix_guard (cfg : config) :
  guard_prefix cfg = "" \/ name_prefix cfg = Py.lower (guard_prefix cfg).
Proof.
  unfold guard_prefix, name_prefix, tickets_get.
  destruct (cfg_tickets cfg) as [t|]; [|now right].
  destruct (ticket_prefix t) as [[|c r]|]; auto.
Qed.

(** X5: when the configured prefix has no upper-case letter, every channel
    that Open names passes the guard of Claim, AddMember, RemoveMember and
    Close. *)
Theorem opened_channels_pass_guard (cfg : config) (opener : user) (iid : Z)
    (ch : channel) :
  Py.lower (guard_prefix cfg) = guard_prefix cfg ->
  channel_type ch = TextChannel ->
  channel_name ch = ticket_channel_name cfg opener iid ->
  not_ticket_channel cfg (Some ch) = false.
Proof.
  intros Hl Hk Hn. unfold not_ticket_channel. rewrite Hk, Hn. cbn [is_text negb orb].
  destruct (name_prefix_guard cfg) as [E|E].
  - now rewrite E, prefix_empty.
  - unfold ticket_channel_name. now rewrite E, Hl, startswith_app.
Qed.

Lemma opened_channels_pass_guard_witness :
  not_ticket_channel default_config (Some ticket_channel) = false.
Proof.
  apply (opened_channels_pass_guard default_config alice 123456789 ticket_channel);
    reflexivity.
Defined.

(** X6: when the configured prefix has an upper-case letter, no channel
    that Open names passes the guard: the four commands reject the
    channels of the tickets that Open created. *)
Theorem upper_case_prefix_locks_tickets (cfg : config) (opener : user) (iid : Z)
    (i : interaction) (ch : channel) (target : user) (reason : option string)
    (w : world) :
  Py.lower (guard_prefix cfg) <> guard_prefix cfg ->
  interaction_channel i = Some ch ->
  channel_name ch = ticket_channel_name cfg opener iid ->
  not_ticket_channel cfg (Some ch) = true
  /\ rejected_without_effect (ticket_claim cfg i) w
  /\ rejected_without_effect (ticket_add cfg i target) w
  /\ rejected_without_effect (ticket_remove cfg i target) w
  /\ rejected_without_effect (ticket_close cfg i reason) w.
Proof.
  intros Hl Hc Hn.
  assert (Py.startswith (channel_name ch) (guard_prefix cfg) = false) as Hs.
  { destruct (Py.startswith _ _) eqn:E; [exfalso | reflexivity].
    apply Hl. destruct (name_prefix_guard cfg) as [G|G].
    - now rewrite G.
    - rewrite Hn in E. unfold ticket_channel_name in E. rewrite G in E.
      apply startswith_same_length in E; [exact E | apply lower_length]. }
  assert (not_ticket_channel cfg (Some ch) = true) as G.
  { unfold not_ticket_channel. rewrite Hs. apply orb_true_r. }
  split; [exact G|].
  unfold rejected_without_effect, ticket_claim, ticket_add, ticket_remove, ticket_close.
  rewrite Hc, G. repeat split; apply run_send_message.
Qed.

Lemma upper_case_prefix_locks_tickets_witness :
  rejected_without_effect
    (ticket_close (sample_tickets "200" "Ticket") (from_ticket staff1) None) (quiet []).
Proof.
  apply (upper_case_prefix_locks_tickets (sample_tickets "200" "Ticket") alice
           123456789 (from_ticket staff1) ticket_channel alice None (quiet []));
    [discriminate | reflexivity | reflexivity].
Defined.

(** ** Open: ids, category, privileges, acknowledgement *)

(** X7: a configured category or support-role id that is not a number
    stops Open with a ValueError before anything is asked of the
    platform and before the actor is answered. *)
Theorem open_malformed_id (cfg : config) (i : interaction) (opener : user)
    (reason : string) (w : world) (g : guild) :
  interaction_guild i = Some g ->
  well_formed_id (tickets_get cfg category_id)
  && well_formed_id (tickets_get cfg support_role_id) = false ->
  run (create_ticket_channel cfg i opener reason) w = (Raise ValueError, initial).
Proof.
  intros Hg H. unfold create_ticket_channel. rewrite Hg.
  unfold well_formed_id in H. revert H. walk; intros H; try discriminate H;
    reflexivity.
Qed.

Lemma open_malformed_id_witness :
  run (create_ticket_channel (sample_tickets "support" "ticket") (from_lobby alice)
         alice "billing issue") (quiet [])
  = (Raise ValueError, initial).
Proof.
  apply (open_malformed_id (sample_tickets "support" "ticket") (from_lobby alice)
           alice "billing issue" (quiet []) den); reflexivity.
Defined.

Lemma lookup_channel_returns (cfg : config) (g : guild) :
  returns (fun found =>
             match found with
             | Some (c, k) => if is_category k then Some c else None
             | None => None
             end = resolved_category cfg g)
    (lookup_channel g (tickets_get cfg category_id)).
Proof.
  intros w s a s'. unfold lookup_channel, resolved_category, int_of, bind, ret, raise.
  destruct (Py.truthy _); [|intros [= <- _]; reflexivity].
  destruct (Py.int 10 _); [intros [= <- _]; reflexivity | discriminate].
Qed.

Lemma open_categories_ok (cfg : config) (i : interaction) (opener : user)
    (reason : string) (g : guild) :
  interaction_guild i = Some g ->
  preserves (open_category_ok cfg g) (create_ticket_channel cfg i opener reason).
Proof.
  intros Hg. unfold create_ticket_channel. rewrite Hg.
  eapply preserves_bind_with;
    [apply preserves_lookup_channel | apply lookup_channel_returns | intros found Hf].
  apply preserves_bind; [apply preserves_lookup_role | intros role].
  unfold create_text_channel.
  repeat first
    [ apply preserves_bind; [|intros ?]
    | apply preserves_try; [|intros []]
    | apply preserves_perform; cbn; auto
    | apply preserves_ret
    | apply preserves_raise
    | apply preserves_utcnow ].
Qed.

Lemma resolved_category_sound (cfg : config) (g : guild) (c : Z) :
  resolved_category cfg g = Some c ->
  In (c, CategoryChannel) (guild_channels g)
  /\ Py.int 10 (Py.get_default (tickets_get cfg category_id) "") = Some c.
Proof.
  unfold resolved_category, get_channel.
  destruct (Py.truthy _); [|discriminate].
  destruct (Py.int 10 _) as [n|]; [|discriminate].
  destruct (find _ _) as [[c' k]|] eqn:F; [|discriminate].
  apply find_some in F as [Hin Heq]. cbn [fst] in Heq. apply Z.eqb_eq in Heq.
  destruct k; try discriminate. intros [= <-]. subst. auto.
Qed.

(** X8: a ticket channel is placed in a category only when the configured
    id is the id of a category channel of the guild; a missing, unknown
    or differently typed id leaves the channel without category. *)
Theorem open_category (cfg : config) (i : interaction) (opener : user)
    (reason : string) (w : world) (g : guild)
    (name : string) (category : option Z)
    (ow : gmap principal PermissionOverwrite) (why : string) :
  interaction_guild i = Some g ->
  In (CreateTextChannel name category ow why)
     (calls (snd (run (create_ticket_channel cfg i opener reason) w))) ->
  category = resolved_category cfg g
  /\ (forall c, category = Some c ->
                In (c, CategoryChannel) (guild_channels g)
                /\ Py.int 10 (Py.get_default (tickets_get cfg category_id) "")
                   = Some c).
Proof.
  intros Hg Hin.
  pose proof (open_categories_ok cfg i opener reason g Hg w initial
                ltac:(constructor)) as F.
  rewrite List.Forall_forall in F. specialize (F _ Hin). cbn in F.
  split; [exact F|]. intros c Hc. apply resolved_category_sound. congruence.
Qed.

Lemma open_category_witness :
  In (301, CategoryChannel) (guild_channels den)
  /\ resolved_category (sample_tickets "200" "ticket") den = Some 301
  /\ resolved_category (sample_tickets "200" "ticket")
       {| guild_id := 100; guild_name := "Den"; guild_roles := [200];
          guild_channels := [(301, TextChannel)]; guild_me := tiger |} = None.
Proof.
  destruct (open_category (sample_tickets "200" "ticket") (from_lobby alice) alice
              "billing issue" (quiet []) den "ticket-alice-6789" (Some 301)
              (ticket_overwrites den alice (Some 200)) "Ticket opened by alice (42)"
              eq_refl (or_introl eq_refl)) as [A B].
  destruct (B 301 eq_refl) as [C _].
  split; [exact C|]. split; [symmetry; exact A | reflexivity].
Defined.

(** X9: the rule set of a new ticket channel has entries for the default
    role, the opener, the service principal and the support role only;
    only the service principal's entry grants manage-channel, and only
    the support role's entry grants manage-messages. *)
Theorem open_least_privilege (cfg : config) (i : interaction) (opener : user)
    (reason : string) (w : world) (g : guild)
    (name : string) (category : option Z)
    (ow : gmap principal PermissionOverwrite) (why : string)
    (p : principal) (o : PermissionOverwrite) :
  interaction_guild i = Some g ->
  In (CreateTextChannel name category ow why)
     (calls (snd (run (create_ticket_channel cfg i opener reason) w))) ->
  ow !! p = Some o ->
  (p = RoleP (default_role g) \/ p = MemberP (user_id opener)
   \/ p = MemberP (user_id (guild_me g))
   \/ exists r, resolved_support_role cfg g = Some r /\ p = RoleP r)
  /\ (manage_channels o = Some true -> p = MemberP (user_id (guild_me g)))
  /\ (manage_messages o = Some true ->
      exists r, resolved_support_role cfg g = Some r /\ p = RoleP r).
Proof.
  intros Hg Hin Hp.
  destruct (open_rule_set _ _ _ _ _ _ _ _ _ _ Hg Hin) as [_ ->].
  unfold ticket_overwrites in Hp.
  assert (forall m : gmap principal PermissionOverwrite,
             m = <[MemberP (user_id (guild_me g)) := me_overwrite]>
                   (<[MemberP (user_id opener) := opener_overwrite]>
                      (<[RoleP (default_role g) := everyone_overwrite]> ∅)) ->
             m !! p = Some o ->
             (p = RoleP (default_role g) \/ p = MemberP (user_id opener)
              \/ p = MemberP (user_id (guild_me g)))
             /\ (manage_channels o = Some true -> p = MemberP (user_id (guild_me g)))
             /\ manage_messages o <> Some true) as Base.
  { intros m -> H.
    apply lookup_insert_Some in H as [[<- <-]|[_ H]];
      [repeat split; [auto | discriminate]|].
    apply lookup_insert_Some in H as [[<- <-]|[_ H]];
      [repeat split; [auto | discriminate | discriminate]|].
    apply lookup_insert_Some in H as [[<- <-]|[_ H]];
      [repeat split; [auto | discriminate | discriminate]|].
    rewrite lookup_empty in H. discriminate. }
  destruct (resolved_support_role cfg g) as [r|].
  - apply lookup_insert_Some in Hp as [[<- <-]|[_ Hp]].
    + repeat split; [right; right; right; eauto | discriminate | eauto].
    + destruct (Base _ eq_refl Hp) as (A & B & C).
      repeat split; [tauto | exact B | intros M; contradiction].
  - destruct (Base _ eq_refl Hp) as (A & B & C).
    repeat split; [tauto | exact B | intros M; contradiction].
Qed.

Lemma open_least_privilege_witness :
  manage_messages support_overwrite = Some true
  /\ exists r, resolved_support_role (sample_tickets "200" "ticket") den = Some r
               /\ RoleP 200 = RoleP r.
Proof.
  split; [reflexivity|].
  destruct (open_least_privilege (sample_tickets "200" "ticket") (from_lobby alice)
              alice "billing issue" (quiet []) den "ticket-alice-6789" (Some 301)
              (ticket_overwrites den alice (Some 200)) "Ticket opened by alice (42)"
              (RoleP 200) support_overwrite
              eq_refl (or_introl eq_refl) eq_refl) as (_ & _ & C).
  apply C. reflexivity.
Defined.



(** X11: Open asks for at most one channel, before anything else, and
    besides that only sends messages and answers the actor; it never
    deletes a channel nor edits permissions, so a channel that was
    created stays when a later step fails. *)
Theorem open_calls_shape (cfg : config) (i : interaction) (opener : user)
    (reason : string) (w : world) :
  let r := run (create_ticket_channel cfg i opener reason) w in
  logs (snd r) = []
  /\ (calls (snd r) = []
      \/ calls (snd r) = [Respond guild_notice true]
      \/ exists create rest,
           calls (snd r) = create :: rest
           /\ is_create create = true
           /\ forallb (fun c => is_send c || is_respond c) rest = true).
Proof.
  unfold create_ticket_channel.
  destruct (interaction_guild i) as [g|]; walk;
    (split; [reflexivity|]);
    first [ left; reflexivity
          | right; left; reflexivity
          | right; right; eexists _, _; repeat split; reflexivity ].
Qed.

(** ** Decimal rendering *)

Lemma dec_value_from_app (acc : Z) (a b : string) :
  dec_value_from acc (a ++ b) = dec_value_from (dec_value_from acc a) b.
Proof.
  revert acc. induction a as [|c a IH]; intros acc; [reflexivity|].
  rewrite append_cons. cbn [dec_value_from]. apply IH.
Qed.

Lemma digit_char_ord (d : Z) : 0 <= d < 10 -> Py.ord (Py.digit_char d) = 48 + d.
Proof.
  intros H.
  assert (d = 0 \/ d = 1 \/ d = 2 \/ d = 3 \/ d = 4 \/ d = 5 \/ d = 6 \/ d = 7
          \/ d = 8 \/ d = 9) as C by lia.
  repeat (destruct C as [->|C]; [reflexivity|]). now subst.
Qed.

(** With enough fuel, [digits_fuel] puts before [acc] the digits of [n]. *)
Lemma digits_fuel_spec (f : nat) (n : Z) (acc : string) :
  (1 <= f)%nat -> 0 <= n < 2 ^ Z.of_nat f ->
  exists pre,
    Py.digits_fuel f n acc = pre ++ acc
    /\ string_forallb is_decimal_digit pre = true
    /\ dec_value pre = n
    /\ pre <> "".
Proof.
  revert n acc. induction f as [|f IH]; intros n acc Hf Hn; [lia|].
  cbn [Py.digits_fuel].
  pose proof (Z.mod_pos_bound n 10 eq_refl) as Hm.
  pose proof (Z.div_mod n 10 ltac:(lia)) as Hd.
  destruct (digit_char_facts (n mod 10) Hm) as (_ & _ & _ & _ & Dd & _).
  destruct (Z.eqb_spec (n / 10) 0) as [E|E].
  - exists (String (Py.digit_char (n mod 10)) "").
    repeat split; [cbn; now rewrite Dd | | discriminate].
    unfold dec_value. cbn [dec_value_from]. rewrite digit_char_ord by exact Hm. lia.
  - assert (0 < n / 10) as Hq.
    { pose proof (Z.div_pos n 10 ltac:(lia) ltac:(lia)). lia. }
    assert (1 <= f)%nat as Hf'.
    { destruct f; [|lia]. change (2 ^ Z.of_nat 1) with 2 in Hn.
      rewrite Z.div_small in E by lia. contradiction. }
    assert (n / 10 < 2 ^ Z.of_nat f) as Hb.
    { apply Z.div_lt_upper_bound; [lia|].
      rewrite Nat2Z.inj_succ, Z.pow_succ_r in Hn by lia. lia. }
    destruct (IH (n / 10) (String (Py.digit_char (n mod 10)) acc) Hf' ltac:(lia))
      as (pre & Ep & Fp & Vp & Np).
    exists (pre ++ String (Py.digit_char (n mod 10)) "").
    rewrite Ep. repeat split.
    + now rewrite append_assoc.
    + rewrite string_forallb_app, Fp. cbn. now rewrite Dd.
    + unfold dec_value in *. rewrite dec_value_from_app, Vp.
      cbn [dec_value_from]. rewrite digit_char_ord by exact Hm. lia.
    + destruct pre; [contradiction | discriminate].
Qed.

(** The digits of a natural number: decimal, not empty, and denoting it. *)
Lemma digits_spec (n : Z) :
  0 <= n ->
  string_forallb is_decimal_digit (Py.digits n) = true
  /\ dec_value (Py.digits n) = n
  /\ Py.digits n <> "".
Proof.
  intros Hn. unfold Py.digits.
  destruct (digits_fuel_spec (S (Z.to_nat (Z.log2 n))) n "" ltac:(lia))
    as (pre & E & F & V & N).
  - split; [exact Hn|].
    rewrite Nat2Z.inj_succ, Z2Nat.id by apply Z.log2_nonneg.
    destruct (Z.eq_dec n 0) as [->|Hz]; [reflexivity|].
    apply Z.log2_spec. lia.
  - assert (pre ++ "" = pre) as R.
    { clear. induction pre as [|c p IH]; [reflexivity|].
      now rewrite append_cons, IH. }
    rewrite E, R. auto.
Qed.

Lemma digits_injective (n m : Z) :
  0 <= n -> 0 <= m -> Py.digits n = Py.digits m -> n = m.
Proof.
  intros Hn Hm E.
  destruct (digits_spec n Hn) as (_ & <- & _).
  destruct (digits_spec m Hm) as (_ & <- & _).
  now rewrite E.
Qed.

Lemma decimal_no_newline (s : string) :
  string_forallb is_decimal_digit s = true -> count_lines s = 0%nat.
Proof.
  induction s as [|c s IH]; [reflexivity|].
  cbn [string_forallb count_lines]. intros H. apply andb_prop in H as [Hc Hs].
  rewrite (IH Hs).
  destruct c as [[] [] [] [] [] [] [] []]; try discriminate Hc; reflexivity.
Qed.

Lemma decimal_no_hyphen (s : string) :
  string_forallb is_decimal_digit s = true -> count_hyphens s = 0%nat.
Proof.
  induction s as [|c s IH]; [reflexivity|].
  cbn [string_forallb count_hyphens]. intros H. apply andb_prop in H as [Hc Hs].
  rewrite (IH Hs).
  destruct c as [[] [] [] [] [] [] [] []]; try discriminate Hc; reflexivity.
Qed.

Lemma zeros_no_newline (k : nat) : count_lines (Py.zeros k) = 0%nat.
Proof. induction k as [|k IH]; [reflexivity|]. cbn. exact IH. Qed.

Lemma format_no_newline (w : nat) (n : Z) : count_lines (Py.format_0d w n) = 0%nat.
Proof.
  unfold Py.format_0d. destruct (Z.ltb_spec n 0) as [H|H].
  - destruct (digits_spec (- n) ltac:(lia)) as (F & _).
    cbn [count_lines]. rewrite count_lines_app, zeros_no_newline.
    now rewrite (decimal_no_newline _ F).
  - destruct (digits_spec n H) as (F & _).
    rewrite count_lines_app, zeros_no_newline.
    now rewrite (decimal_no_newline _ F).
Qed.

Lemma str_int_no_newline (n : Z) : count_lines (Py.str_int n) = 0%nat.
Proof.
  unfold Py.str_int. destruct (Z.ltb_spec n 0) as [H|H].
  - destruct (digits_spec (- n) ltac:(lia)) as (F & _).
    cbn [count_lines]. now rewrite (decimal_no_newline _ F).
  - destruct (digits_spec n H) as (F & _). now apply decimal_no_newline.
Qed.

Lemma strftime_no_newline (d : datetime) : count_lines (strftime_utc d) = 0%nat.
Proof.
  unfold strftime_utc, dt_date_time.
  rewrite !count_lines_app, !format_no_newline. reflexivity.
Qed.

Lemma dt_str_no_newline (d : datetime) : count_lines (dt_str d) = 0%nat.
Proof.
  unfold dt_str, dt_date_time.
  rewrite !count_lines_app, !format_no_newline.
  destruct (microsecond d =? 0);
    rewrite ?count_lines_app, ?format_no_newline; reflexivity.
Qed.

(** ** The transcript as a text *)

Lemma file_content_app (l1 l2 : list string) :
  file_content (l1 ++ l2) = file_content l1 ++ file_content l2.
Proof.
  unfold file_content. induction l1 as [|x l1 IH]; [reflexivity|].
  cbn [app fold_right]. now rewrite IH, append_assoc.
Qed.

(** X12: the transcript only grows with the history: the messages that
    come later add their entries behind those of the earlier ones and
    change none of them, in the list of entries and in the written text. *)
Theorem transcript_append_only (ch : channel) (earlier later : list message) :
  transcript_lines ch (earlier ++ later)
  = (transcript_lines ch earlier ++ flat_map message_lines later)%list
  /\ file_content (transcript_lines ch (earlier ++ later))
     = file_content (transcript_lines ch earlier)
         ++ file_content (flat_map message_lines later).
Proof.
  assert (transcript_lines ch (earlier ++ later)
          = (transcript_lines ch earlier ++ flat_map message_lines later)%list) as E.
  { rewrite !transcript_lines_concat, flat_map_app. apply app_assoc. }
  split; [exact E|]. now rewrite E, file_content_app.
Qed.

Lemma ends_app (a b : string) : ends_with_newline b -> ends_with_newline (a ++ b).
Proof. intros [t ->]. exists (a ++ t). now rewrite append_assoc. Qed.

Lemma ends_nl : ends_with_newline nl.
Proof. now exists "". Qed.

Lemma embed_lines_end (ts author : string) (idx : Z) (embeds : list message_embed) :
  Forall ends_with_newline (embed_lines ts author idx embeds).
Proof.
  revert idx. induction embeds as [|e rest IH]; intros idx; constructor; [|apply IH].
  repeat apply ends_app. apply ends_nl.
Qed.

Lemma message_lines_end (m : message) : Forall ends_with_newline (message_lines m).
Proof.
  rewrite message_lines_loops. cbv zeta. repeat apply Forall_app_2.
  - apply embed_lines_end.
  - destruct (msg_content m); repeat constructor. repeat apply ends_app. apply ends_nl.
  - apply List.Forall_forall. intros l Hl. apply in_map_iff in Hl as (a & <- & _).
    repeat apply ends_app. apply ends_nl.
Qed.

Lemma file_content_ends (lines : list string) (last : string) :
  ends_with_newline last -> ends_with_newline (file_content (lines ++ [last])).
Proof.
  intros H. rewrite file_content_app. apply ends_app.
  unfold file_content. cbn [fold_right].
  destruct H as [t ->]. exists t.
  clear. induction (t ++ nl) as [|c s IH]; [reflexivity|].
  now rewrite append_cons, IH.
Qed.

(** X13: every entry of the transcript ends with a line break, and so
    does the written text. *)
Theorem transcript_newline_terminated (ch : channel) (history : list message) :
  Forall ends_with_newline (transcript_lines ch history)
  /\ ends_with_newline (file_content (transcript_lines ch history)).
Proof.
  assert (Forall ends_with_newline (transcript_lines ch history)) as F.
  { rewrite transcript_lines_concat. apply Forall_app_2.
    - unfold transcript_header.
      repeat constructor; repeat apply ends_app; apply ends_nl.
    - apply Forall_flat_map, List.Forall_forall. intros m _. apply message_lines_end. }
  split; [exact F|].
  destruct (exists_last (l := transcript_lines ch history)) as (front & last & E).
  { rewrite transcript_lines_concat. discriminate. }
  rewrite E in *. apply file_content_ends.
  rewrite List.Forall_forall in F. apply F, in_elt.
Qed.

(** The lines of the literal texts, counted by evaluation. *)
Ltac count_literals :=
  repeat match goal with
    | |- context [count_lines (String ?c ?s)] =>
        let v := eval vm_compute in (count_lines (String c s)) in
        change (count_lines (String c s)) with v
    end;
  change (list_sum []) with 0%nat.

Lemma embed_lines_exact (ts author : string) (idx : Z) (embeds : list message_embed) :
  newline_free ts -> newline_free author ->
  Forall (fun e => newline_free (Py.or_default (e_title e) "")
                   /\ newline_free (Py.or_default (e_description e) "")) embeds ->
  list_sum (map count_lines (embed_lines ts author idx embeds))
  = (2 * List.length embeds)%nat.
Proof.
  unfold newline_free. intros Ht Ha F. revert idx.
  induction F as [|e rest [H1 H2] F IH]; intros idx; [reflexivity|].
  cbn [embed_lines map List.length]. rewrite list_sum_cons, IH.
  rewrite !count_lines_app, count_lines_nl, Ht, Ha, H1, H2, str_int_no_newline.
  count_literals. lia.
Qed.

Lemma message_lines_exact (m : message) :
  message_plain m ->
  list_sum (map count_lines (message_lines m)) = physical_units m.
Proof.
  intros (Ha & Hc & He & Hu). unfold newline_free in *.
  rewrite message_lines_loops. cbv zeta. unfold physical_units.
  assert (count_lines (user_tag (msg_author m) ++ " ("
                         ++ Py.str_int (user_id (msg_author m)) ++ ")") = 0%nat) as Au.
  { rewrite !count_lines_app, Ha, str_int_no_newline. reflexivity. }
  rewrite !map_app, !list_sum_app.
  rewrite embed_lines_exact; [|apply strftime_no_newline|exact Au|exact He].
  assert (forall l : list attachment,
             Forall (fun a => count_lines (a_url a) = 0%nat) l ->
             list_sum
               (map count_lines
                  (map (fun a =>
                          "[" ++ strftime_utc (msg_created_at m) ++ "] "
                            ++ (user_tag (msg_author m) ++ " ("
                                  ++ Py.str_int (user_id (msg_author m)) ++ ")")
                            ++ " attached: " ++ a_url a ++ nl) l))
             = List.length l) as At.
  { intros l F. induction F as [|a l Hx F IH]; [reflexivity|].
    cbn [map List.length]. rewrite list_sum_cons, IH.
    rewrite !count_lines_app, count_lines_nl, strftime_no_newline, Ha,
      str_int_no_newline, Hx.
    count_literals. lia. }
  rewrite (At _ Hu).
  destruct (msg_content m) as [|c r] eqn:E; cbn [map]; rewrite ?list_sum_cons.
  - count_literals. lia.
  - rewrite !count_lines_app, count_lines_nl, strftime_no_newline, Ha,
      str_int_no_newline, Hc.
    count_literals. lia.
Qed.

(** X14: when neither the names of the channel and the guild nor any text
    of a message holds a line break, the written transcript has exactly 3
    lines plus, for every message, two lines for each embed, one for a
    non-empty text and one for each attachment. *)
Theorem transcript_text_lines (ch : channel) (history : list message) :
  newline_free (channel_name ch) ->
  newline_free (guild_name (channel_guild ch)) ->
  Forall message_plain history ->
  count_lines (file_content (transcript_lines ch history))
  = (3 + list_sum (map physical_units history))%nat.
Proof.
  unfold newline_free. intros Hc Hg F.
  rewrite transcript_lines_concat, count_lines_file, map_app, list_sum_app.
  f_equal.
  - unfold transcript_header. cbn [map]. rewrite !list_sum_cons.
    rewrite !count_lines_app, !count_lines_nl, Hc, Hg, str_int_no_newline,
      dt_str_no_newline.
    reflexivity.
  - induction F as [|m h Hm F IH]; [reflexivity|].
    cbn [flat_map map]. rewrite map_app, list_sum_app, list_sum_cons, IH.
    now rewrite message_lines_exact.
Qed.

Lemma transcript_text_lines_witness :
  count_lines (file_content (transcript_lines ticket_channel
                               [embed_only; text_and_files])) = 8%nat.
Proof.
  apply (transcript_text_lines ticket_channel [embed_only; text_and_files]);
    [reflexivity | reflexivity |].
  repeat constructor.
Defined.

(** ** The file of a transcript *)

Lemma count_hyphens_app (a b : string) :
  count_hyphens (a ++ b) = (count_hyphens a + count_hyphens b)%nat.
Proof.
  induction a as [|c a IH]; [reflexivity|].
  rewrite append_cons. cbn [count_hyphens]. rewrite IH. lia.
Qed.

Lemma append_inj_prefix (a x y : string) : a ++ x = a ++ y -> x = y.
Proof.
  induction a as [|c a IH]; [trivial|].
  rewrite !append_cons. intros [= H]. auto.
Qed.

Lemma append_inj_length (a b x y : string) :
  String.length a = String.length b -> a ++ x = b ++ y -> a = b /\ x = y.
Proof.
  revert b. induction a as [|c a IH]; intros [|d b] L E; try discriminate L.
  - auto.
  - rewrite !append_cons in E. injection E as -> E. injection L as L.
    destruct (IH b L E) as [-> ->]. auto.
Qed.

(** Two ways to cut one text: one of the first parts begins the other. *)
Lemma append_split (a b x y : string) :
  a ++ x = b ++ y ->
  (exists c, b = a ++ c /\ x = c ++ y) \/ (exists c, a = b ++ c /\ y = c ++ x).
Proof.
  revert b. induction a as [|c a IH]; intros b E.
  - left. exists b. auto.
  - destruct b as [|d b].
    + right. exists (String c a). auto.
    + rewrite !append_cons in E. injection E as -> E.
      destruct (IH b E) as [(t & -> & ->)|(t & -> & ->)]; [left | right];
        exists t; auto.
Qed.

(** A name, a hyphen and digits: the last hyphen of the text tells where
    the digits begin. *)
Lemma hyphen_digits_injective (n1 n2 d1 d2 tail : string) :
  count_hyphens d1 = 0%nat -> count_hyphens d2 = 0%nat ->
  count_hyphens tail = 0%nat ->
  n1 ++ "-" ++ d1 ++ tail = n2 ++ "-" ++ d2 ++ tail ->
  n1 = n2 /\ d1 = d2.
Proof.
  intros H1 H2 Ht E.
  assert (forall a b u v,
             count_hyphens u = 0%nat -> count_hyphens v = 0%nat ->
             (exists c, b = a ++ c /\ "-" ++ u = c ++ "-" ++ v) -> a = b /\ u = v)
    as Cut.
  { intros a b u v Hu Hv (c & -> & Ec).
    destruct c as [|x c].
    - rewrite append_nil in Ec. apply append_inj_prefix in Ec.
      split; [|exact Ec]. clear. induction a as [|c a IH]; [reflexivity|].
      now rewrite append_cons, <- IH.
    - exfalso. rewrite !append_cons, !append_nil in Ec. injection Ec as <- Ec.
      apply (f_equal count_hyphens) in Ec.
      rewrite count_hyphens_app in Ec. cbn [count_hyphens] in Ec.
      rewrite Hu, Hv in Ec. change (Ascii.eqb "-" "-") with true in Ec.
      cbv iota in Ec. lia. }
  assert (forall d, count_hyphens d = 0%nat -> count_hyphens (d ++ tail) = 0%nat)
    as Hd by (intros d H; now rewrite count_hyphens_app, H, Ht).
  destruct (append_split _ _ _ _ E) as [C|C].
  - destruct (Cut n1 n2 (d1 ++ tail) (d2 ++ tail) (Hd _ H1) (Hd _ H2) C) as [-> Eq].
    split; [reflexivity|].
    apply (append_inj_length d1 d2 tail tail); [|exact Eq].
    apply (f_equal String.length) in Eq. rewrite !append_length in Eq. lia.
  - destruct (Cut n2 n1 (d2 ++ tail) (d1 ++ tail) (Hd _ H2) (Hd _ H1) C) as [-> Eq].
    split; [reflexivity|].
    apply (append_inj_length d1 d2 tail tail); [|now symmetry].
    apply (f_equal String.length) in Eq. rewrite !append_length in Eq. lia.
Qed.

Lemma startswith_slash (s : string) :
  Py.startswith s "/" = true -> exists r, s = String "/" r.
Proof.
  destruct s as [|c r]; [discriminate|]. cbn [Py.startswith].
  rewrite andb_true_r. intros H. apply Ascii.eqb_eq in H. subst. eauto.
Qed.

Lemma transcript_path_injective (s1 s2 : string) :
  transcript_path s1 = transcript_path s2 -> s1 = s2.
Proof.
  unfold transcript_path.
  destruct (Py.startswith s1 "/") eqn:E1, (Py.startswith s2 "/") eqn:E2; intros E.
  - exact E.
  - apply startswith_slash in E1 as [r ->]. discriminate E.
  - apply startswith_slash in E2 as [r ->]. discriminate E.
  - now apply append_inj_prefix in E.
Qed.

(** X15: the file of a transcript tells the channel: two channels with
    different ids (ids are natural numbers) never share a file, so the
    transcript of one ticket is never written over that of another. *)
Theorem transcript_file_injective (ch1 ch2 : channel) :
  0 <= channel_id ch1 -> 0 <= channel_id ch2 ->
  transcript_file ch1 = transcript_file ch2 ->
  channel_id ch1 = channel_id ch2 /\ channel_name ch1 = channel_name ch2.
Proof.
  intros H1 H2 E. apply transcript_path_injective in E.
  unfold Py.str_int in E.
  destruct (Z.ltb_spec (channel_id ch1) 0) as [?|_]; [lia|].
  destruct (Z.ltb_spec (channel_id ch2) 0) as [?|_]; [lia|].
  destruct (digits_spec _ H1) as (F1 & _). destruct (digits_spec _ H2) as (F2 & _).
  apply hyphen_digits_injective in E as [En Ed];
    [|now apply decimal_no_hyphen..|reflexivity].
  split; [now apply digits_injective | exact En].
Qed.

Lemma transcript_file_injective_witness :
  transcript_file ticket_channel <> transcript_file lobby.
Proof.
  intros E.
  destruct (transcript_file_injective ticket_channel lobby) as [A _];
    [discriminate | discriminate | exact E | discriminate A].
Defined.

(** X16: the recorder makes the directory, reads the history and writes
    the file, in this order and each at most once; it writes only what it
    made of the whole history, to the file of the channel, and it returns
    the path exactly when the write succeeded. *)
Theorem recorder_steps (ch : channel) (w : world) :
  let r := run (generate_text_transcript ch) w in
  let make := MakeDirs "transcripts" in
  let read := History (channel_id ch) in
  let write :=
    WriteLines (transcript_file ch)
      (transcript_lines ch (w_history w (channel_id ch))) in
  logs (snd r) = []
  /\ ((fst r = Ret (transcript_file ch) /\ calls (snd r) = [make; read; write]
       /\ w_raises w write = None)
      \/ (exists e, fst r = Raise e
                    /\ ((calls (snd r) = [make] /\ w_raises w make = Some e)
                        \/ (calls (snd r) = [make; read] /\ w_raises w read = Some e)
                        \/ (calls (snd r) = [make; read; write]
                            /\ w_raises w write = Some e)))).
Proof.
  unfold generate_text_transcript, transcript_file. cbv zeta. walk;
    (split; [reflexivity|]);
    first [ left; repeat split; first [reflexivity | assumption]
          | right; eexists; split; [reflexivity|];
            first [ left; split; reflexivity
                  | right; left; split; reflexivity
                  | right; right; split; reflexivity ] ].
Qed.

(** ** AddMember and RemoveMember *)

(** X17: in a ticket channel, AddMember and RemoveMember edit the
    permissions of the target first and acknowledge in public afterwards;
    when the edit raises, the exception leaves the command and nothing is
    acknowledged. *)
Theorem member_edit_then_acknowledge (cfg : config) (i : interaction) (target : user)
    (w : world) (ch : channel) :
  interaction_channel i = Some ch ->
  not_ticket_channel cfg (Some ch) = false ->
  let grant :=
    SetPermissions (channel_id ch) (MemberP (user_id target)) (Some opener_overwrite) in
  let clear := SetPermissions (channel_id ch) (MemberP (user_id target)) None in
  let added := "✅ Added " ++ user_mention target ++ " to this ticket." in
  let removed := "✅ Removed " ++ user_mention target ++ " from this ticket." in
  run (ticket_add cfg i target) w
  = match w_raises w grant with
    | Some e => (Raise e, {| calls := [grant]; logs := [] |})
    | None =>
        (fst (run (send_message added false) w),
         {| calls := [grant; Respond added false]; logs := [] |})
    end
  /\ run (ticket_remove cfg i target) w
     = match w_raises w clear with
       | Some e => (Raise e, {| calls := [clear]; logs := [] |})
       | None =>
           (fst (run (send_message removed false) w),
            {| calls := [clear; Respond removed false]; logs := [] |})
       end.
Proof.
  intros Hc Hg. cbv zeta. unfold ticket_add, ticket_remove. rewrite Hc, Hg.
  split; walk; reflexivity.
Qed.

Lemma member_edit_then_acknowledge_witness :
  run (ticket_add default_config (from_ticket staff1) alice) no_permission_edits
  = (Raise Forbidden,
     {| calls := [SetPermissions 555 (MemberP 42) (Some opener_overwrite)];
        logs := [] |}).
Proof.
  destruct (member_edit_then_acknowledge default_config (from_ticket staff1) alice
              no_permission_edits ticket_channel eq_refl eq_refl) as [A _].
  exact A.
Defined.

Lemma overwrites_after_app (w : world) (cs1 cs2 : list call) (ch : Z)
    (store : gmap principal PermissionOverwrite) :
  overwrites_after w (cs1 ++ cs2) ch store
  = overwrites_after w cs2 ch (overwrites_after w cs1 ch store).
Proof. apply fold_left_app. Qed.

(** The two commands, one after the other, where no call fails. *)
Lemma add_then_remove_calls (cfg : config) (i : interaction) (target : user)
    (w : world) (ch : channel) :
  interaction_channel i = Some ch ->
  not_ticket_channel cfg (Some ch) = false ->
  (forall c, w_raises w c = None) ->
  calls (snd (run (ticket_add cfg i target >> ticket_remove cfg i target) w))
  = [SetPermissions (channel_id ch) (MemberP (user_id target)) (Some opener_overwrite);
     Respond ("✅ Added " ++ user_mention target ++ " to this ticket.") false;
     SetPermissions (channel_id ch) (MemberP (user_id target)) None;
     Respond ("✅ Removed " ++ user_mention target ++ " from this ticket.") false].
Proof.
  intros Hc Hg Hw. unfold ticket_add, ticket_remove. rewrite Hc, Hg.
  step. rewrite !Hw. reflexivity.
Qed.

(** The overwrites after RemoveMember, where no call fails. *)
Lemma remove_clears_entry (cfg : config) (i : interaction) (target : user)
    (w : world) (ch : channel) (store : gmap principal PermissionOverwrite) :
  interaction_channel i = Some ch ->
  not_ticket_channel cfg (Some ch) = false ->
  (forall c, w_raises w c = None) ->
  overwrites_after w (calls (snd (run (ticket_remove cfg i target) w)))
    (channel_id ch) store
  = delete (MemberP (user_id target)) store.
Proof.
  intros Hc Hg Hw. unfold ticket_remove. rewrite Hc, Hg. step. rewrite !Hw.
  unfold overwrites_after. cbn [fold_left]. now rewrite !Hw, Z.eqb_refl.
Qed.

(** X18: where no call fails, AddMember gives the target the bundle of an
    opener, replacing any entry the target had; RemoveMember leaves the
    target without entry, not with a denial; and RemoveMember after
    AddMember restores the overwrites of a channel in which the target
    had no entry. *)
Theorem add_remove_round_trip (cfg : config) (i : interaction) (target : user)
    (w : world) (ch : channel) (store : gmap principal PermissionOverwrite) :
  interaction_channel i = Some ch ->
  not_ticket_channel cfg (Some ch) = false ->
  (forall c, w_raises w c = None) ->
  let after m := overwrites_after w (calls (snd (run m w))) (channel_id ch) store in
  after (ticket_add cfg i target) = <[MemberP (user_id target) := opener_overwrite]> store
  /\ after (ticket_remove cfg i target) = delete (MemberP (user_id target)) store
  /\ after (ticket_add cfg i target >> ticket_remove cfg i target)
     = delete (MemberP (user_id target)) store
  /\ (store !! MemberP (user_id target) = None ->
      after (ticket_add cfg i target >> ticket_remove cfg i target) = store).
Proof.
  intros Hc Hg Hw after.
  assert (after (ticket_add cfg i target >> ticket_remove cfg i target)
          = delete (MemberP (user_id target)) store) as R.
  { subst after. cbv beta. rewrite (add_then_remove_calls cfg i target w ch Hc Hg Hw).
    unfold overwrites_after. cbn [fold_left]. rewrite !Hw, Z.eqb_refl. cbn [andb].
    apply delete_insert_eq. }
  repeat split.
  - subst after. cbv beta. unfold ticket_add. rewrite Hc, Hg. step. rewrite !Hw.
    unfold overwrites_after. cbn [fold_left]. now rewrite !Hw, Z.eqb_refl.
  - now apply remove_clears_entry.
  - exact R.
  - intros Hn. rewrite R. now apply delete_id.
Qed.

Lemma add_remove_round_trip_witness :
  overwrites_after (quiet [])
    (calls (snd (run (ticket_add default_config (from_ticket staff1) staff1
                      >> ticket_remove default_config (from_ticket staff1) staff1)
                   (quiet []))))
    555 (ticket_overwrites den alice None)
  = ticket_overwrites den alice None.
Proof.
  destruct (add_remove_round_trip default_config (from_ticket staff1) staff1
              (quiet []) ticket_channel (ticket_overwrites den alice None)
              eq_refl eq_refl (fun _ => eq_refl)) as (_ & _ & _ & A).
  apply A. reflexivity.
Defined.

(** X19: RemoveMember does not spare the opener: applied to the opener of
    a ticket, it leaves the opener without entry in a channel whose
    default role is still denied view. *)
Theorem remove_opener_locks_out (cfg : config) (i : interaction) (opener : user)
    (w : world) (ch : channel) (g : guild) (support_role : option Z) :
  interaction_channel i = Some ch ->
  not_ticket_channel cfg (Some ch) = false ->
  (forall c, w_raises w c = None) ->
  support_role <> Some (default_role g) ->
  let store :=
    overwrites_after w (calls (snd (run (ticket_remove cfg i opener) w)))
      (channel_id ch) (ticket_overwrites g opener support_role) in
  store !! MemberP (user_id opener) = None
  /\ denies_view store (RoleP (default_role g)).
Proof.
  intros Hc Hg Hw Hs store. subst store.
  rewrite (remove_clears_entry cfg i opener w ch _ Hc Hg Hw).
  split; [apply lookup_delete_eq|].
  destruct (everyone_denied g opener support_role Hs) as (o & Ho & Hv).
  exists o. split; [|exact Hv]. now rewrite lookup_delete_ne by discriminate.
Qed.

Lemma remove_opener_locks_out_witness :
  overwrites_after (quiet [])
    (calls (snd (run (ticket_remove default_config (from_ticket staff1) alice)
                   (quiet []))))
    555 (ticket_overwrites den alice (Some 200)) !! MemberP 42 = None.
Proof.
  destruct (remove_opener_locks_out default_config (from_ticket staff1) alice
              (quiet []) ticket_channel den (Some 200) eq_refl eq_refl
              (fun _ => eq_refl)) as [A _]; [discriminate | exact A].
Defined.

(** ** Close: what is logged, and a malformed archive id *)



(** X21: a configured archive id that is not a number stops Close with a
    ValueError after the transcript is written: nothing is delivered and
    the channel is not deleted. *)
Theorem close_malformed_archive_id (cfg : config) (i : interaction)
    (reason : option string) (w : world) (ch : channel) (path : string)
    (st : state) :
  interaction_channel i = Some ch ->
  not_ticket_channel cfg (Some ch) = false ->
  w_raises w (Respond closing_notice true) = None ->
  run (generate_text_transcript ch) w = (Ret path, st) ->
  well_formed_id (tickets_get cfg transcripts_channel_id) = false ->
  run (ticket_close cfg i reason) w
  = (Raise ValueError,
     {| calls := Respond closing_notice true :: calls st; logs := [] |}).
Proof.
  intros Hc Hg Hr. unfold ticket_close, well_formed_id. rewrite Hc, Hg.
  unfold generate_text_transcript. step. rewrite Hr.
  walk_close; intros H1 H2; try discriminate H1; try discriminate H2;
    injection H1 as <- <-; reflexivity.
Qed.

Lemma close_malformed_archive_id_witness :
  run (ticket_close
         {| cfg_brand := None;
            cfg_tickets := Some {| category_id := None; support_role_id := None;
                                   transcripts_channel_id := Some "#transcripts";
                                   ticket_prefix := None |} |}
         (from_ticket staff1) None) (quiet [])
  = (Raise ValueError,
     {| calls := [Respond closing_notice true; MakeDirs "transcripts"; History 555;
                  WriteLines "transcripts/ticket-alice-6789-555.txt"
                    (transcript_lines ticket_channel [])];
        logs := [] |}).
Proof.
  apply (close_malformed_archive_id _ (from_ticket staff1) None (quiet [])
           ticket_channel "transcripts/ticket-alice-6789-555.txt"
           {| calls := [MakeDirs "transcripts"; History 555;
                        WriteLines "transcripts/ticket-alice-6789-555.txt"
                          (transcript_lines ticket_channel [])];
              logs := [] |}); reflexivity.
Defined.

(** ** Escape sequences *)

Lemma strip_prefix_length (p s rest : string) :
  strip_prefix p s = Some rest ->
  String.length s = (String.length p + String.length rest)%nat.
Proof.
  revert s. induction p as [|a p IH]; intros s H.
  - now injection H as <-.
  - destruct s as [|x t]; [discriminate H|]. cbn [strip_prefix] in H.
    destruct (Ascii.eqb a x); [|discriminate H].
    cbn [String.length]. now rewrite (IH _ H).
Qed.

Lemma strip_prefix_startswith (p s : string) :
  Py.startswith s p = false -> strip_prefix p s = None.
Proof.
  revert s. induction p as [|a p IH]; intros s H; [discriminate H|].
  destruct s as [|x t]; [reflexivity|]. cbn [Py.startswith strip_prefix] in *.
  destruct (Ascii.eqb a x); [|reflexivity]. now apply IH.
Qed.

(** Text in which [old] does not occur is left as it is. *)
Lemma replace_fuel_absent (old new : string) (n : nat) (s : string) :
  occurs old s = false -> replace_fuel n old new s = s.
Proof.
  revert s. induction n as [|n IH]; intros s H; [reflexivity|].
  cbn [replace_fuel]. destruct s as [|x t].
  - cbn [occurs] in H. apply orb_false_elim in H as [H _].
    now rewrite (strip_prefix_startswith _ _ H).
  - cbn [occurs] in H. apply orb_false_elim in H as [H1 H2].
    rewrite (strip_prefix_startswith _ _ H1). now rewrite (IH _ H2).
Qed.

Lemma replace_absent (old new s : string) :
  occurs old s = false -> replace old new s = s.
Proof.
  intros H. destruct old as [|a old].
  - destruct s; discriminate H.
  - apply replace_fuel_absent, H.
Qed.

Lemma occurs_no_head (a : ascii) (p s : string) :
  string_forallb (fun c => negb (Ascii.eqb c a)) s = true ->
  occurs (String a p) s = false.
Proof.
  induction s as [|x t IH]; intros H; [reflexivity|].
  cbn [string_forallb] in H. apply andb_prop in H as [H1 H2].
  cbn [occurs Py.startswith]. rewrite (IH H2), Ascii.eqb_sym.
  apply negb_true_iff in H1. now rewrite H1.
Qed.

(** The fuel does not matter once it covers the text. *)
Lemma replace_fuel_enough (a : ascii) (old new : string) (n m : nat) (s : string) :
  (String.length s <= n)%nat -> (String.length s <= m)%nat ->
  replace_fuel n (String a old) new s = replace_fuel m (String a old) new s.
Proof.
  revert m s. induction n as [|n IH]; intros m s Hn Hm.
  - destruct s; [|cbn in Hn; lia]. now destruct m.
  - destruct m as [|m].
    + destruct s; [reflexivity|cbn in Hm; lia].
    + cbn [replace_fuel]. destruct (strip_prefix (String a old) s) as [rest|] eqn:E.
      * apply strip_prefix_length in E. cbn [String.length] in E.
        f_equal. apply IH; lia.
      * destruct s as [|x t]; [reflexivity|]. cbn [String.length] in Hn, Hm.
        f_equal. apply IH; lia.
Qed.

Lemma replace_match (a : ascii) (old new s rest : string) :
  strip_prefix (String a old) s = Some rest ->
  replace (String a old) new s = new ++ replace (String a old) new rest.
Proof.
  intros E. unfold replace. pose proof (strip_prefix_length _ _ _ E) as L.
  cbn [String.length] in L. rewrite L. cbn [Nat.add replace_fuel]. rewrite E.
  f_equal. apply replace_fuel_enough; lia.
Qed.

Lemma replace_skip (a : ascii) (old new : string) (x : ascii) (t : string) :
  strip_prefix (String a old) (String x t) = None ->
  replace (String a old) new (String x t)
  = String x (replace (String a old) new t).
Proof.
  intros E. unfold replace. cbn [String.length replace_fuel]. now rewrite E.
Qed.

Lemma replace_empty (a : ascii) (old new : string) :
  replace (String a old) new "" = "".
Proof. reflexivity. Qed.

(** Text without the first character of [old] in front of [w] is passed
    over. *)
Lemma replace_plain_prefix (a : ascii) (old new u w : string) :
  string_forallb (fun c => negb (Ascii.eqb c a)) u = true ->
  replace (String a old) new (u ++ w) = u ++ replace (String a old) new w.
Proof.
  induction u as [|x u IH]; intros H; [now rewrite !append_nil|].
  cbn [string_forallb] in H. apply andb_prop in H as [H1 H2].
  rewrite !append_cons, replace_skip, (IH H2); [reflexivity|].
  cbn [strip_prefix]. apply negb_true_iff in H1.
  now rewrite Ascii.eqb_sym, H1.
Qed.

Lemma occurs_two_chars (a b x : ascii) (r : string) :
  occurs (two_chars a b) (String x r)
  = (Ascii.eqb a x && starts b r) || occurs (two_chars a b) r.
Proof.
  unfold two_chars. cbn [occurs Py.startswith]. destruct r as [|y r]; [reflexivity|].
  cbn [starts]. now rewrite andb_true_r.
Qed.

Lemma replace_two_chars (a b c x : ascii) (t : string) :
  replace (two_chars a b) (one_char c) (String x t)
  = match t with
    | String y t' =>
        if Ascii.eqb a x && Ascii.eqb b y
        then String c (replace (two_chars a b) (one_char c) t')
        else String x (replace (two_chars a b) (one_char c) t)
    | EmptyString => String x EmptyString
    end.
Proof.
  unfold two_chars, one_char. destruct t as [|y t'].
  - rewrite replace_skip; [reflexivity|]. cbn. now destruct (Ascii.eqb a x).
  - destruct (Ascii.eqb a x) eqn:Ea; destruct (Ascii.eqb b y) eqn:Eb; cbn [andb];
      try (rewrite replace_skip; [reflexivity|]; cbn; now rewrite Ea, ?Eb).
    rewrite (replace_match _ _ _ _ t'); [reflexivity|]. cbn. now rewrite Ea, Eb.
Qed.

(** The first character of the result is the replacement or the first
    character of the text. *)
Lemma starts_replace_two_chars (a b c d : ascii) (t : string) :
  Ascii.eqb d c = false -> starts d t = false ->
  starts d (replace (two_chars a b) (one_char c) t) = false.
Proof.
  intros Hc Ht. destruct t as [|y t]; [reflexivity|]. rewrite replace_two_chars.
  destruct t as [|z t']; [exact Ht|].
  destruct (Ascii.eqb a y && Ascii.eqb b z); [exact Hc|exact Ht].
Qed.

(** No occurrence of [two_chars a d] is left, or made, by replacing
    [two_chars a b], given that the text had none or that [d] is [b]. *)
Lemma occurs_replace_two_chars (a b c d : ascii) (n : nat) (s : string) :
  Ascii.eqb a c = false -> Ascii.eqb d c = false ->
  (String.length s <= n)%nat ->
  Ascii.eqb d b = true \/ occurs (two_chars a d) s = false ->
  occurs (two_chars a d) (replace (two_chars a b) (one_char c) s) = false.
Proof.
  intros Ha Hd. revert s. induction n as [|n IH]; intros s L H.
  - destruct s; [reflexivity|cbn in L; lia].
  - destruct s as [|x t]; [reflexivity|]. cbn [String.length] in L.
    assert (Ht : Ascii.eqb d b = true \/ occurs (two_chars a d) t = false).
    { destruct H as [H|H]; [now left|right]. rewrite occurs_two_chars in H.
      now apply orb_false_elim in H. }
    rewrite replace_two_chars. destruct t as [|y t'].
    + rewrite occurs_two_chars. cbn. now rewrite andb_false_r.
    + assert (L1 : (String.length (String y t') <= n)%nat) by lia.
      cbn [String.length] in L.
      destruct (Ascii.eqb a x) eqn:Ea; destruct (Ascii.eqb b y) eqn:Eb; cbn [andb].
      * rewrite occurs_two_chars, Ha. cbn [andb orb]. apply IH; [lia|].
        destruct Ht as [Ht|Ht]; [now left|right]. rewrite occurs_two_chars in Ht.
        now apply orb_false_elim in Ht.
      * rewrite occurs_two_chars, Ea, (IH _ L1 Ht), orb_false_r. cbn [andb].
        apply starts_replace_two_chars; [exact Hd|]. cbn [starts].
        destruct H as [H|H].
        -- apply Ascii.eqb_eq in H as ->. exact Eb.
        -- rewrite occurs_two_chars, Ea in H. cbn [andb starts] in H.
           now apply orb_false_elim in H.
      * rewrite occurs_two_chars, Ea. cbn [andb orb]. apply IH; [exact L1|exact Ht].
      * rewrite occurs_two_chars, Ea. cbn [andb orb]. apply IH; [exact L1|exact Ht].
Qed.

Lemma occurs_escaped_crlf (s : string) :
  occurs (two_chars "\" "n") s = false -> occurs "\r\n" s = false.
Proof.
  induction s as [|x t IH]; intros H; [reflexivity|].
  rewrite occurs_two_chars in H. apply orb_false_elim in H as [_ H].
  cbn [occurs]. rewrite (IH H), orb_false_r. clear IH.
  destruct t as [|y [|z [|v t]]];
    try (cbn; now rewrite ?andb_false_r).
  rewrite !occurs_two_chars in H. cbn [starts] in H.
  apply orb_false_elim in H as [_ H]. apply orb_false_elim in H as [H _].
  cbn [Py.startswith].
  destruct (Ascii.eqb "\" z); destruct (Ascii.eqb "n" v); try discriminate H;
    cbn [andb]; now rewrite ?andb_false_r.
Qed.

(** X22: the result of normalize_multiline holds no backslash-n and no
    backslash-t escape, and normalising it again changes nothing; None
    stays None. *)
Theorem normalize_multiline_idempotent (s : option string) :
  normalize_multiline (normalize_multiline s) = normalize_multiline s
  /\ match normalize_multiline s with
     | Some t => occurs "\n" t = false /\ occurs "\t" t = false
     | None => s = None
     end.
Proof.
  destruct s as [s|]; [|now split]. cbn [normalize_multiline].
  set (s1 := replace "\r\n" nl s). set (s2 := replace "\n" nl s1).
  set (t := replace "\t" tab s2).
  assert (Hn : occurs "\n" t = false).
  { apply (occurs_replace_two_chars "\" "t" _ "n" (String.length s2));
      [reflexivity|reflexivity|lia|right].
    apply (occurs_replace_two_chars "\" "n" _ "n" (String.length s1));
      [reflexivity|reflexivity|lia|now left]. }
  assert (Ht : occurs "\t" t = false).
  { apply (occurs_replace_two_chars "\" "t" _ "t" (String.length s2));
      [reflexivity|reflexivity|lia|now left]. }
  split; [|now split]. f_equal.
  rewrite (replace_absent "\r\n"); [|now apply occurs_escaped_crlf].
  rewrite (replace_absent "\n"); [|exact Hn]. now apply replace_absent.
Qed.

(** X23: normalize_multiline leaves text without a backslash as it is. *)
Theorem normalize_multiline_plain (s : string) :
  backslash_free s = true -> normalize_multiline (Some s) = Some s.
Proof.
  intros H. cbn [normalize_multiline]. f_equal.
  assert (A : forall old new, replace (String "\" old) new s = s).
  { intros. apply replace_absent. now apply occurs_no_head. }
  now rewrite !A.
Qed.

(** X24: between two texts without a backslash, the escape backslash-r
    backslash-n becomes one newline (not a carriage return and a
    newline), backslash-n becomes a newline and backslash-t a tab. *)
Theorem normalize_multiline_escapes (u v : string) :
  backslash_free u = true -> backslash_free v = true ->
  normalize_multiline (Some (u ++ "\r\n" ++ v)) = Some (u ++ nl ++ v)
  /\ normalize_multiline (Some (u ++ "\n" ++ v)) = Some (u ++ nl ++ v)
  /\ normalize_multiline (Some (u ++ "\t" ++ v)) = Some (u ++ tab ++ v).
Proof.
  intros Hu Hv.
  assert (A : forall w old new, backslash_free w = true ->
              replace (String "\" old) new w = w).
  { intros. apply replace_absent. now apply occurs_no_head. }
  assert (F : forall w, backslash_free w = true ->
              backslash_free (u ++ w ++ v) = true).
  { intros w Hw. unfold backslash_free in *.
    now rewrite !string_forallb_app, Hu, Hv, Hw. }
  assert (K : forall c old new, Ascii.eqb c "\" = false ->
              replace (String "\" old) new (String c v) = String c v).
  { intros c old new Hc. apply A. unfold backslash_free in *.
    cbn [string_forallb]. now rewrite Hc, Hv. }
  cbn [normalize_multiline]. repeat split; f_equal.
  - rewrite (replace_plain_prefix "\" "r\n" nl u _ Hu).
    rewrite (replace_match "\" "r\n" nl ("\r\n" ++ v) v eq_refl), (A v) by exact Hv.
    now rewrite !(A (u ++ nl ++ v)) by exact (F nl eq_refl).
  - rewrite (replace_plain_prefix "\" "r\n" nl u _ Hu).
    rewrite !append_cons, append_nil.
    rewrite (replace_skip "\" "r\n" nl "\" (String "n" v) eq_refl), K by reflexivity.
    change (String "\" (String "n" v)) with ("\n" ++ v).
    rewrite (replace_plain_prefix "\" "n" nl u _ Hu).
    rewrite (replace_match "\" "n" nl ("\n" ++ v) v eq_refl), (A v) by exact Hv.
    now rewrite !(A (u ++ nl ++ v)) by exact (F nl eq_refl).
  - rewrite (replace_plain_prefix "\" "r\n" nl u _ Hu).
    rewrite !append_cons, append_nil.
    rewrite (replace_skip "\" "r\n" nl "\" (String "t" v) eq_refl), K by reflexivity.
    change (String "\" (String "t" v)) with ("\t" ++ v).
    rewrite (replace_plain_prefix "\" "n" nl u _ Hu).
    rewrite !append_cons, append_nil.
    rewrite (replace_skip "\" "n" nl "\" (String "t" v) eq_refl), K by reflexivity.
    change (String "\" (String "t" v)) with ("\t" ++ v).
    rewrite (replace_plain_prefix "\" "t" tab u _ Hu).
    now rewrite (replace_match "\" "t" tab ("\t" ++ v) v eq_refl), (A v) by exact Hv.
Qed.

Lemma normalize_multiline_escapes_witness :
  normalize_multiline (Some "Line one\r\nLine two")
  = Some ("Line one" ++ nl ++ "Line two").
Proof.
  apply (normalize_multiline_escapes "Line one" "Line two"); reflexivity.
Defined.

Lemma normalize_multiline_plain_witness :
  normalize_multiline (Some "Need help? Open a ticket.")
  = Some "Need help? Open a ticket.".
Proof. apply normalize_multiline_plain. reflexivity. Defined.

(** ** Link buttons *)

Lemma add_links (l : list button_entry) (items : list Button) :
  fold_left add_link l items
  = app items (map to_button (List.filter yields_button l)).
Proof.
  revert items. induction l as [|b l IH]; intros items.
  - cbn. now rewrite app_nil_r.
  - cbn [fold_left List.filter]. rewrite IH. unfold add_link, yields_button, is_link.
    cbn [to_button button_url].
    destruct (Py.startswith _ "http://" || Py.startswith _ "https://").
    + now rewrite <- app_assoc.
    + reflexivity.
Qed.

(** X25: the view of an announcement holds at most five buttons, each
    with an http or https address: they are the entries among the first
    five of the list whose address is one, in the order of the list, so an
    entry behind the fifth is never shown, whatever became of the first
    five. *)
Theorem link_buttons_bounds (buttons : list button_entry) :
  LinkButtons (Some buttons)
  = map to_button (List.filter yields_button (firstn 5 buttons))
  /\ (length (LinkButtons (Some buttons)) <= 5)%nat
  /\ List.Forall (fun b => is_link (button_url b) = true)
       (LinkButtons (Some buttons)).
Proof.
  assert (E : LinkButtons (Some buttons)
              = map to_button (List.filter yields_button (firstn 5 buttons))).
  { unfold LinkButtons. rewrite add_links. now destruct buttons. }
  rewrite E. split; [reflexivity|]. split.
  - rewrite length_map.
    assert (F : forall l : list button_entry,
              (length (List.filter yields_button l) <= length l)%nat).
    { induction l as [|b l IH]; [cbn; lia|]. cbn [List.filter].
      destruct (yields_button b); cbn [length]; lia. }
    specialize (F (firstn 5 buttons)).
    pose proof (firstn_le_length 5 buttons). lia.
  - apply List.Forall_forall. intros b Hb. apply in_map_iff in Hb as [e [<- He]].
    apply filter_In in He as [_ He]. exact He.
Qed.
